(** * KickAlerts: the polling and transition engine of [kickalerts.py]

    A shallow embedding of the upstream client ([_fetch_channel_data],
    [_parse_stream_info]), of the per-streamer check
    ([_check_single_streamer]), of the sleep computation and the pass of
    [_stream_checker_loop] and of the commands that write the store,
    followed by the properties of the specification that concern them
    and by further properties of the code. *)

From Stdlib Require Import ZArith Lia Ascii String List Bool Permutation.
From stdpp Require Import base option list gmap strings pretty.
Import ListNotations.

Local Open Scope Z_scope.
Local Open Scope string_scope.

Set Warnings "-register-all".

(** ** Python values

    The payload returned by [resp.json()] and everything read out of it is
    a JSON value.  Numbers are the integers the upstream API sends (ids,
    counts); [None] is [JNull].  An object is the list of its items in
    insertion order; the decoder never produces two items with one key, and
    [assoc] reads the first one. *)

Inductive json : Type :=
  | JNull
  | JBool (b : bool)
  | JInt (n : Z)
  | JStr (s : string)
  | JArr (xs : list json)
  | JObj (kvs : list (string * json)).

(** A call of the messaging API fails with [discord.NotFound], with
    [discord.Forbidden] or with another [discord.HTTPException], the class
    the first two derive from. *)
Inductive discord_error : Type :=
  | NotFound
  | Forbidden
  | HTTPException.

(** Exceptions that the modelled code can raise. *)
Inductive exn : Type :=
  | AttributeError
  | TypeError
  | KeyError
  | IndexError
  | Discord (e : discord_error).

Inductive res (A : Type) : Type :=
  | Ok (a : A)
  | Raise (e : exn).
Arguments Ok {A} a.
Arguments Raise {A} e.

Definition res_bind {A B : Type} (m : res A) (k : A -> res B) : res B :=
  match m with
  | Ok a => k a
  | Raise e => Raise e
  end.

Declare Scope res_scope.
Delimit Scope res_scope with res.
Notation "x <- m ;; k" := (res_bind m (fun x => k))
  (at level 100, m at next level, right associativity) : res_scope.

Fixpoint assoc (k : string) (kvs : list (string * json)) : option json :=
  match kvs with
  | [] => None
  | (k', v) :: rest => if String.eqb k k' then Some v else assoc k rest
  end.

(** [bool(v)] *)
Definition truthy (v : json) : bool :=
  match v with
  | JNull => false
  | JBool b => b
  | JInt n => negb (n =? 0)%Z
  | JStr s => negb (String.eqb s "")
  | JArr xs => match xs with [] => false | _ => true end
  | JObj kvs => match kvs with [] => false | _ => true end
  end.

(** [v.get(k, default)]: only a dict has the method. *)
Definition py_get (v : json) (k : string) (default : json) : res json :=
  match v with
  | JObj kvs => Ok (match assoc k kvs with Some x => x | None => default end)
  | _ => Raise AttributeError
  end.

(** [v[0]] *)
Definition py_item0 (v : json) : res json :=
  match v with
  | JArr [] => Raise IndexError
  | JArr (x :: _) => Ok x
  | JObj _ => Raise KeyError
  | JStr EmptyString => Raise IndexError
  | JStr (String c _) => Ok (JStr (String c EmptyString))
  | JNull | JBool _ | JInt _ => Raise TypeError
  end.

(** [iter(v)]: the elements of a list, the keys of a dict, the characters
    of a string. *)
Fixpoint chars (s : string) : list json :=
  match s with
  | EmptyString => []
  | String c s' => JStr (String c EmptyString) :: chars s'
  end.

Definition py_iter (v : json) : res (list json) :=
  match v with
  | JArr xs => Ok xs
  | JObj kvs => Ok (map (fun kv => JStr (fst kv)) kvs)
  | JStr s => Ok (chars s)
  | JNull | JBool _ | JInt _ => Raise TypeError
  end.

Definition is_dict (v : json) : bool :=
  match v with JObj _ => true | _ => false end.

(** [a == b] on JSON values: [bool] is a subclass of [int], lists compare
    elementwise and dicts item by item whatever the order. *)
Fixpoint py_eq (a b : json) {struct a} : bool :=
  match a, b with
  | JNull, JNull => true
  | JBool x, JBool y => Bool.eqb x y
  | JBool x, JInt n => ((if x then 1 else 0) =? n)%Z
  | JInt n, JBool x => (n =? (if x then 1 else 0))%Z
  | JInt m, JInt n => (m =? n)%Z
  | JStr s, JStr t => String.eqb s t
  | JArr xs, JArr ys =>
      (fix go (xs ys : list json) {struct xs} : bool :=
         match xs, ys with
         | [], [] => true
         | x :: xs', y :: ys' => py_eq x y && go xs' ys'
         | _, _ => false
         end) xs ys
  | JObj xs, JObj ys =>
      (length xs =? length ys)%nat &&
      (fix go (xs : list (string * json)) {struct xs} : bool :=
         match xs with
         | [] => true
         | (k, v) :: xs' =>
             match assoc k ys with
             | Some w => py_eq v w
             | None => false
             end && go xs'
         end) xs
  | _, _ => false
  end.

(** ** Python string methods

    A [string] stands for a Python [str] of ASCII characters, which is
    what the slugs of Kick channels and the placeholders are.  On such
    strings [lower], [strip] and [replace] below are [str.lower],
    [str.strip] and [str.replace].  Outside ASCII they are not: Python
    also lower-cases letters such as U+00C9 and strips whitespace such as
    U+00A0.  A statement that depends on what [lower] or [strip] return
    assumes [ascii_only] of the names it is about. *)

(** [str.lower] on an ASCII character. *)
Definition lower_char (c : ascii) : ascii :=
  let n := nat_of_ascii c in
  if ((65 <=? n) && (n <=? 90))%nat then ascii_of_nat (n + 32) else c.

Fixpoint lower (s : string) : string :=
  match s with
  | EmptyString => EmptyString
  | String c s' => String (lower_char c) (lower s')
  end.

(** [str.isspace] on an ASCII character: the whitespace that [str.strip]
    removes from an ASCII string. *)
Definition is_space (c : ascii) : bool :=
  let n := nat_of_ascii c in
  (((9 <=? n) && (n <=? 13)) || ((28 <=? n) && (n <=? 32)))%nat.

Definition is_slash (c : ascii) : bool := Ascii.eqb c "/"%char.

Fixpoint lstrip (p : ascii -> bool) (s : string) : string :=
  match s with
  | EmptyString => EmptyString
  | String c s' => if p c then lstrip p s' else s
  end.

Fixpoint rstrip (p : ascii -> bool) (s : string) : string :=
  match s with
  | EmptyString => EmptyString
  | String c s' =>
      match rstrip p s' with
      | EmptyString => if p c then EmptyString else String c EmptyString
      | r => String c r
      end
  end.

(** [s.strip()] is [strip is_space s]; [s.strip("/")] is [strip is_slash s]. *)
Definition strip (p : ascii -> bool) (s : string) : string :=
  rstrip p (lstrip p s).

Fixpoint starts_with (old s : string) : bool :=
  match old, s with
  | EmptyString, _ => true
  | String a old', String b s' => Ascii.eqb a b && starts_with old' s'
  | String _ _, EmptyString => false
  end.

(** [s.replace(old, new)] for a non-empty [old]: scan from the left, and at
    each match put [new] and resume after the match ([skip] counts the
    characters of the match still to pass over). *)
Fixpoint replace_from (old new : string) (skip : nat) (s : string) : string :=
  match s with
  | EmptyString => EmptyString
  | String c s' =>
      match skip with
      | S k => replace_from old new k s'
      | O =>
          if starts_with old s
          then new +:+ replace_from old new (String.length old - 1) s'
          else String c (replace_from old new 0 s')
      end
  end.

Fixpoint join_each (new s : string) : string :=
  match s with
  | EmptyString => EmptyString
  | String c s' => String c (new +:+ join_each new s')
  end.

Definition replace (old new s : string) : string :=
  match old with
  | EmptyString => new +:+ join_each new s
  | String _ _ => replace_from old new 0 s
  end.

Section Engine.

(** The rendered notification, a [discord.Embed]; its content is the
    business of the embed builders, which the engine only calls. *)
Variable Embed : Type.

(** [repr] of a list or a dict, a builtin of the language. *)
Variable py_repr : json -> string.

(** [str(v)], also what an f-string field [{v}] prints. *)
Definition py_str (v : json) : string :=
  match v with
  | JNull => "None"
  | JBool true => "True"
  | JBool false => "False"
  | JInt n => pretty n
  | JStr s => s
  | JArr _ | JObj _ => py_repr v
  end.

Definition KICK_API_BASE : string := "https://kick.com/api/v2/channels".
Definition KICK_BASE_URL : string := "https://kick.com".

(** ** Upstream client: [_parse_stream_info] *)

Record StreamInfo : Type := mkStreamInfo {
  info_is_live : json;
  info_username : json;
  info_display_name : json;
  info_avatar_url : json;
  info_channel_url : string;
  info_followers : json;
  info_is_verified : json;
  info_banner_url : json;
  info_stream_id : json;
  info_stream_title : json;
  info_viewer_count : json;
  info_category : json;
  info_thumbnail_url : json;
  info_started_at : json;
  info_language : json;
  info_is_mature : json;
  info_tags : list json
}.

(** The nine live-only entries of [info], as [info.update] sets them. *)
Record LiveFields : Type := mkLiveFields {
  lf_stream_id : json;
  lf_stream_title : json;
  lf_viewer_count : json;
  lf_category : json;
  lf_thumbnail_url : json;
  lf_started_at : json;
  lf_language : json;
  lf_is_mature : json;
  lf_tags : list json
}.

Local Open Scope res_scope.

(** [[tag.get("name", "") for tag in tags]] *)
Fixpoint tag_names (tags : list json) : res (list json) :=
  match tags with
  | [] => Ok []
  | tag :: rest =>
      n <- py_get tag "name" (JStr "") ;;
      ns <- tag_names rest ;;
      Ok (n :: ns)
  end.

(** Lines 138-153: the argument of [info.update] when the stream is live. *)
Definition live_fields (livestream : json) : res LiveFields :=
  stream_id <- py_get livestream "id" JNull ;;
  stream_title <- py_get livestream "session_title" (JStr "No Title") ;;
  viewer_count <- py_get livestream "viewer_count" (JInt 0) ;;
  category <-
    (cats <- py_get livestream "categories" JNull ;;
     if truthy cats then
       cats' <- py_get livestream "categories" (JArr [JObj []]) ;;
       c0 <- py_item0 cats' ;;
       py_get c0 "name" (JStr "Unknown")
     else
       cat <- py_get livestream "category" JNull ;;
       if truthy cat then
         cat' <- py_get livestream "category" (JObj []) ;;
         py_get cat' "name" (JStr "Unknown")
       else Ok (JStr "Unknown")) ;;
  thumbnail_url <-
    (th <- py_get livestream "thumbnail" JNull ;;
     if is_dict th then
       th' <- py_get livestream "thumbnail" (JObj []) ;;
       py_get th' "url" JNull
     else py_get livestream "thumbnail" JNull) ;;
  started_at <- py_get livestream "created_at" JNull ;;
  language <- py_get livestream "language" (JStr "en") ;;
  is_mature <- py_get livestream "is_mature" (JBool false) ;;
  tags <-
    (ts <- py_get livestream "tags" (JArr []) ;;
     it <- py_iter ts ;;
     tag_names it) ;;
  Ok (mkLiveFields stream_id stream_title viewer_count category
        thumbnail_url started_at language is_mature tags).

(** Lines 155-165: the defaults when the stream is not live. *)
Definition offline_fields : LiveFields :=
  mkLiveFields JNull JNull (JInt 0) JNull JNull JNull JNull (JBool false) [].

Definition _parse_stream_info (data : json) : res StreamInfo :=
  livestream <- py_get data "livestream" JNull ;;
  is_live <-
    (match livestream with
     | JNull => Ok (JBool false)
     | _ => py_get livestream "is_live" (JBool false)
     end) ;;
  username <-
    (user <- py_get data "user" (JObj []) ;;
     dflt <- py_get user "username" (JStr "Unknown") ;;
     py_get data "slug" dflt) ;;
  display_name <-
    (user <- py_get data "user" (JObj []) ;;
     dflt <- py_get data "slug" (JStr "Unknown") ;;
     py_get user "username" dflt) ;;
  avatar_url <-
    (user <- py_get data "user" (JObj []) ;;
     py_get user "profile_pic" JNull) ;;
  slug <- py_get data "slug" (JStr "") ;;
  followers <- py_get data "followersCount" (JInt 0) ;;
  is_verified <- py_get data "verified" (JBool false) ;;
  banner_url <-
    (b <- py_get data "banner_image" JNull ;;
     if truthy b then
       b' <- py_get data "banner_image" (JObj []) ;;
       py_get b' "url" JNull
     else Ok JNull) ;;
  lf <- (if truthy is_live && truthy livestream
         then live_fields livestream
         else Ok offline_fields) ;;
  Ok {| info_is_live := is_live;
        info_username := username;
        info_display_name := display_name;
        info_avatar_url := avatar_url;
        info_channel_url := KICK_BASE_URL +:+ "/" +:+ py_str slug;
        info_followers := followers;
        info_is_verified := is_verified;
        info_banner_url := banner_url;
        info_stream_id := lf_stream_id lf;
        info_stream_title := lf_stream_title lf;
        info_viewer_count := lf_viewer_count lf;
        info_category := lf_category lf;
        info_thumbnail_url := lf_thumbnail_url lf;
        info_started_at := lf_started_at lf;
        info_language := lf_language lf;
        info_is_mature := lf_is_mature lf;
        info_tags := lf_tags lf |}.

(** ** Persisted state and collaborators *)

(** One entry of the guild's [streamers] dict, with the keys and types of
    the comment in [__init__].  A missing key and [None] both read as
    [None]; [delete_after_offline] is [None] when the key is missing. *)
Record WatchRecord : Type := mkWatchRecord {
  channel_id : option Z;
  ping_role_id : option Z;
  custom_message : option string;
  delete_after_offline : option bool;
  last_message_id : option Z;
  is_live : bool;
  last_stream_id : json
}.

Definition set_is_live (b : bool) (r : WatchRecord) : WatchRecord :=
  mkWatchRecord (channel_id r) (ping_role_id r) (custom_message r)
    (delete_after_offline r) (last_message_id r) b (last_stream_id r).

Definition set_last_stream_id (v : json) (r : WatchRecord) : WatchRecord :=
  mkWatchRecord (channel_id r) (ping_role_id r) (custom_message r)
    (delete_after_offline r) (last_message_id r) (is_live r) v.

Definition set_last_message_id (m : option Z) (r : WatchRecord) : WatchRecord :=
  mkWatchRecord (channel_id r) (ping_role_id r) (custom_message r)
    (delete_after_offline r) m (is_live r) (last_stream_id r).

(** What the check needs of a [discord.Guild]: the ids of its channels and
    the mention string of each of its roles. *)
Record Guild : Type := mkGuild {
  guild_id : Z;
  channels : gset Z;
  roles : gmap Z string
}.

Definition get_channel (guild : Guild) (id : Z) : option Z :=
  if decide (id ∈ channels guild) then Some id else None.

Definition get_role (guild : Guild) (id : Z) : option string :=
  roles guild !! id.

(** The embed builders.  Both can raise: each evaluates
    [discord.Embed.Empty] when [info] has no avatar (lines 190 and 270),
    an attribute that is not in discord.py 2, the version that the
    asynchronous [cog_load] of line 56 is for; [_build_live_embed] also
    formats the viewer count with a thousands separator. *)
Variable _build_live_embed : StreamInfo -> string -> bool -> bool -> res Embed.
Variable _build_offline_embed : StreamInfo -> res Embed.

Inductive net_error : Type := TimeoutError | ClientError | OtherError.

(** The status of a response and what [resp.json()] gives on it. *)
Record response : Type := mkResponse {
  status : Z;
  body : net_error + json
}.

Inductive delivery (A : Type) : Type :=
  | Done (a : A)
  | Failed (e : discord_error).
Arguments Done {A} a.
Arguments Failed {A} e.

(** The outside world of one check: the answer of the upstream API to a
    GET, and the outcome of each call of the messaging API ([send] gives
    the id of the new message, [fetch_message] the message). *)
Record Collab : Type := mkCollab {
  http_get : string -> net_error + response;
  channel_send : Z -> option string -> Embed -> delivery Z;
  channel_fetch_message : Z -> Z -> delivery Z;
  message_delete : Z -> delivery unit;
  message_edit : Z -> option (option string) -> Embed -> delivery unit
}.

Inductive action : Type :=
  | Send (channel : Z) (content : option string) (embed : Embed)
  | FetchMessage (channel : Z) (message : Z)
  | Delete (message : Z)
  | Edit (message : Z) (content : option (option string)) (embed : Embed).

Inductive log_entry : Type :=
  | DebugNotFound (username : string)
  | WarningStatus (status : Z) (username : string)
  | WarningTimeout (username : string)
  | WarningHTTPError (username : string)
  | ErrorUnexpected (username : string)
  | WarningMissingPermissions (channel : Z) (guild : Z)
  | WarningSendFailed (username : string)
  | ErrorCheckingStreamer (username : string) (guild : Z) (e : exn)
  | ErrorForceChecking (username : string) (e : exn).

(** The state a check runs in: whether [self.session] is open, the
    [streamers] dict of the guild in the configuration store, the calls
    made to the messaging API and the log, both oldest first. *)
Record world : Type := mkWorld {
  session_open : bool;
  streamers : gmap string WatchRecord;
  actions : list action;
  logs : list log_entry
}.

Definition M (A : Type) : Type := world -> res A * world.

Definition ret {A : Type} (a : A) : M A := fun w => (Ok a, w).

Definition bind {A B : Type} (m : M A) (k : A -> M B) : M B :=
  fun w =>
    match m w with
    | (Ok a, w') => k a w'
    | (Raise e, w') => (Raise e, w')
    end.

Definition lift {A : Type} (r : res A) : M A := fun w => (r, w).

(** [try: m  except <the exceptions h handles>: h e] *)
Definition try_except {A : Type} (m : M A) (h : exn -> option (M A)) : M A :=
  fun w =>
    match m w with
    | (Ok a, w') => (Ok a, w')
    | (Raise e, w') =>
        match h e with
        | Some k => k w'
        | None => (Raise e, w')
        end
    end.

Definition log (l : log_entry) : M unit :=
  fun w => (Ok tt, mkWorld (session_open w) (streamers w) (actions w) (logs w ++ [l])).

Definition open_session : M unit :=
  fun w => (Ok tt, mkWorld true (streamers w) (actions w) (logs w)).

Definition read_streamers : M (gmap string WatchRecord) :=
  fun w => (Ok (streamers w), w).

(** [streamers[username][...] = ...] under [if username in streamers],
    inside [async with self.config.guild(guild).streamers() as streamers].
    The context manager writes the dict back when the block ends, also
    when an exception ends it; nothing reads the store before that, so the
    model writes through. *)
Definition update_streamer (username : string) (f : WatchRecord -> WatchRecord) : M unit :=
  fun w => (Ok tt, mkWorld (session_open w) (alter f username (streamers w))
                     (actions w) (logs w)).

(** A call of the messaging API: it is recorded, and its failure is raised. *)
Definition call {A : Type} (a : action) (d : delivery A) : M A :=
  fun w =>
    (match d with Done x => Ok x | Failed e => Raise (Discord e) end,
     mkWorld (session_open w) (streamers w) (actions w ++ [a]) (logs w)).

Declare Scope M_scope.
Delimit Scope M_scope with M.
Notation "x <- m ;; k" := (bind m (fun x => k))
  (at level 100, m at next level, right associativity) : M_scope.
Notation "m ;;; k" := (bind m (fun _ => k))
  (at level 100, right associativity) : M_scope.
Local Open Scope M_scope.

Variable collab : Collab.

(** ** Upstream client: [_fetch_channel_data] *)

Definition request_url (username : string) : string :=
  KICK_API_BASE +:+ "/" +:+ lower username.

(** The result is [None] where the code returns [None]: on every failure,
    and on a 200 whose body decodes to [null] (line 104 returns what
    [resp.json()] gives). *)
Definition _fetch_channel_data (username : string) : M (option json) :=
  open_session ;;;
  let url := request_url username in
  match http_get collab url with
  | inr resp =>
      if (status resp =? 200)%Z then
        match body resp with
        | inr JNull => ret None
        | inr data => ret (Some data)
        | inl TimeoutError => log (WarningTimeout username) ;;; ret None
        | inl ClientError => log (WarningHTTPError username) ;;; ret None
        | inl OtherError => log (ErrorUnexpected username) ;;; ret None
        end
      else if (status resp =? 404)%Z then
        log (DebugNotFound username) ;;; ret None
      else
        log (WarningStatus (status resp) username) ;;; ret None
  | inl TimeoutError => log (WarningTimeout username) ;;; ret None
  | inl ClientError => log (WarningHTTPError username) ;;; ret None
  | inl OtherError => log (ErrorUnexpected username) ;;; ret None
  end.

(** Line 475 of [kickalert_add], run before its call of the fetch. *)
Definition add_username (username : string) : string :=
  strip is_slash (strip is_space (lower username)).

(** ** Transition engine: [_check_single_streamer] *)

(** [a or b] and [bool(a)] on optional ids. *)
Definition truthy_id (a : option Z) : bool :=
  match a with
  | Some n => negb (n =? 0)%Z
  | None => false
  end.

Definition py_or (a b : option Z) : option Z :=
  if truthy_id a then a else b.

Definition truthy_str (a : option string) : bool :=
  match a with
  | Some s => negb (String.eqb s "")
  | None => false
  end.

(** [s.replace(old, new)] with [new] read from [info]: the method takes a
    [str] only. *)
Definition py_replace (s old : string) (new : json) : res string :=
  match new with
  | JStr n => Ok (replace old n s)
  | _ => Raise TypeError
  end.

Definition newline : string := String (ascii_of_nat 10) EmptyString.

(** Lines 390-394: the five replacements, in this order. *)
Definition apply_template (custom_msg : string) (info : StreamInfo) : res string :=
  (custom_msg <- py_replace custom_msg "{streamer}" (info_display_name info) ;;
   custom_msg <- py_replace custom_msg "{game}" (info_category info) ;;
   custom_msg <- py_replace custom_msg "{title}" (info_stream_title info) ;;
   custom_msg <- py_replace custom_msg "{url}" (JStr (info_channel_url info)) ;;
   custom_msg <- py_replace custom_msg "{viewers}" (JStr (py_str (info_viewer_count info))) ;;
   Ok custom_msg)%res.

(** Lines 380-395: the text sent along with the embed. *)
Definition build_content (guild : Guild) (streamer_config : WatchRecord)
    (info : StreamInfo) (ping_role_id : option Z) : res (option string) :=
  let content :=
    match ping_role_id with
    | Some id => if negb (id =? 0)%Z then get_role guild id else None
    | None => None
    end in
  if truthy_str (custom_message streamer_config) then
    (custom_msg <- apply_template (default "" (custom_message streamer_config)) info ;;
     Ok (Some (if truthy_str content
               then default "" content +:+ newline +:+ custom_msg
               else custom_msg)))%res
  else Ok content.

(** The condition of line 377. *)
Definition is_new_stream (info : StreamInfo) (streamer_config : WatchRecord) : bool :=
  truthy (info_is_live info) &&
  (negb (is_live streamer_config) ||
   (truthy (info_stream_id info) &&
    negb (py_eq (info_stream_id info) (last_stream_id streamer_config)))).

(** Lines 378-410. *)
Definition went_live (guild : Guild) (username : string)
    (streamer_config : WatchRecord) (info : StreamInfo) (channel : Z)
    (embed_style : string) (show_viewers show_category : bool)
    (ping_role_id : option Z) : M unit :=
  embed <- lift (_build_live_embed info embed_style show_viewers show_category) ;;
  content <- lift (build_content guild streamer_config info ping_role_id) ;;
  try_except
    (msg <- call (Send channel content embed) (channel_send collab channel content embed) ;;
     update_streamer username
       (fun r => set_last_message_id (Some msg)
                   (set_last_stream_id (info_stream_id info) (set_is_live true r))))
    (fun e =>
       match e with
       | Discord Forbidden => Some (log (WarningMissingPermissions channel (guild_id guild)))
       | Discord _ => Some (log (WarningSendFailed username))
       | _ => None
       end).

Definition except_discord (e : exn) : option (M unit) :=
  match e with
  | Discord _ => Some (ret tt)
  | _ => None
  end.

(** Lines 414-435.  The [try] of line 422 catches the errors of the
    messaging API only: an exception of [_build_offline_embed] leaves the
    block, and line 435 is not run. *)
Definition went_offline (username : string) (streamer_config : WatchRecord)
    (info : StreamInfo) (channel : Z) (auto_delete : bool) : M unit :=
  streamers <- read_streamers ;;
  match streamers !! username with
  | None => ret tt
  | Some record =>
      update_streamer username (set_is_live false) ;;;
      let last_msg_id := last_message_id record in
      (if truthy_id last_msg_id then
         try_except
           (old_msg <- call (FetchMessage channel (default 0%Z last_msg_id))
                         (channel_fetch_message collab channel (default 0%Z last_msg_id)) ;;
            let delete_after := default auto_delete (delete_after_offline streamer_config) in
            if delete_after then
              call (Delete old_msg) (message_delete collab old_msg)
            else
              offline_embed <- lift (_build_offline_embed info) ;;
              call (Edit old_msg (Some None) offline_embed)
                (message_edit collab old_msg (Some None) offline_embed))
           except_discord
       else ret tt) ;;;
      update_streamer username (set_last_message_id None)
  end.

(** Lines 438-447. *)
Definition still_live (streamer_config : WatchRecord) (info : StreamInfo)
    (channel : Z) (embed_style : string) (show_viewers show_category : bool) : M unit :=
  let last_msg_id := last_message_id streamer_config in
  if truthy_id last_msg_id then
    try_except
      (old_msg <- call (FetchMessage channel (default 0%Z last_msg_id))
                    (channel_fetch_message collab channel (default 0%Z last_msg_id)) ;;
       embed <- lift (_build_live_embed info embed_style show_viewers show_category) ;;
       call (Edit old_msg None embed) (message_edit collab old_msg None embed))
      except_discord
  else ret tt.

Definition _check_single_streamer (guild : Guild) (username : string)
    (streamer_config : WatchRecord) (embed_style : string)
    (show_viewers show_category auto_delete : bool)
    (global_channel_id global_ping_role_id : option Z) : M unit :=
  data <- _fetch_channel_data username ;;
  match data with
  | None => ret tt
  | Some data =>
      info <- lift (_parse_stream_info data) ;;
      let was_live := is_live streamer_config in
      let channel_id := py_or (channel_id streamer_config) global_channel_id in
      if negb (truthy_id channel_id) then ret tt else
      match get_channel guild (default 0%Z channel_id) with
      | None => ret tt
      | Some channel =>
          let ping_role_id := py_or (ping_role_id streamer_config) global_ping_role_id in
          if is_new_stream info streamer_config then
            went_live guild username streamer_config info channel
              embed_style show_viewers show_category ping_role_id
          else if negb (truthy (info_is_live info)) && was_live then
            went_offline username streamer_config info channel auto_delete
          else if truthy (info_is_live info) && was_live
                  && String.eqb embed_style "detailed" then
            still_live streamer_config info channel embed_style show_viewers show_category
          else ret tt
      end
  end.

End Engine.

Arguments Done {A} a.
Arguments Failed {A} e.
Arguments mkCollab {Embed}.
Arguments http_get {Embed}.
Arguments channel_send {Embed}.
Arguments channel_fetch_message {Embed}.
Arguments message_delete {Embed}.
Arguments message_edit {Embed}.
Arguments Send {Embed}.
Arguments FetchMessage {Embed}.
Arguments Delete {Embed}.
Arguments Edit {Embed}.
Arguments mkWorld {Embed}.
Arguments session_open {Embed}.
Arguments streamers {Embed}.
Arguments actions {Embed}.
Arguments logs {Embed}.
Arguments _fetch_channel_data {Embed}.
Arguments went_live {Embed}.
Arguments went_offline {Embed}.
Arguments still_live {Embed}.
Arguments _check_single_streamer {Embed}.
Arguments ret {Embed A}.
Arguments bind {Embed A B}.

(** ** Scope scheduler: the sleep of [_stream_checker_loop] *)

(** What [all_guilds()] holds of a guild; [check_interval] is [None] when
    the guild never set it. *)
Record GuildData : Type := mkGuildData {
  gd_streamers : gmap string WatchRecord;
  gd_check_interval : option Z
}.

(** Lines 326-328. *)
Definition intervals (all_guilds : list (Z * GuildData)) : list Z :=
  map (fun g => default 60%Z (gd_check_interval (snd g)))
      (filter (fun g => gd_streamers (snd g) <> ∅) all_guilds).

(** [min(xs)] of a non-empty list. *)
Definition py_min (x : Z) (xs : list Z) : Z := fold_left Z.min xs x.

(** Lines 329-330. *)
Definition sleep_time (all_guilds : list (Z * GuildData)) : Z :=
  let sleep_time :=
    match intervals all_guilds with
    | [] => 60%Z
    | x :: xs => py_min x xs
    end in
  Z.max sleep_time 30.

(** ** Vocabulary of the statements *)

Fixpoint all_chars (p : ascii -> bool) (s : string) : bool :=
  match s with
  | EmptyString => true
  | String c s' => p c && all_chars p s'
  end.

Definition not_open (c : ascii) : bool := negb (Ascii.eqb c "{"%char).
Definition not_brace (c : ascii) : bool :=
  negb (Ascii.eqb c "{"%char) && negb (Ascii.eqb c "}"%char).

(** A template cut into text without an opening brace and tokens [{name}]
    whose name has no brace. *)
Inductive seg : Type :=
  | Txt (t : string)
  | Tok (name : string).

Definition placeholder (name : string) : string := "{" +:+ name +:+ "}".

Definition seg_text (s : seg) : string :=
  match s with
  | Txt t => t
  | Tok name => placeholder name
  end.

Fixpoint flatten (segs : list seg) : string :=
  match segs with
  | [] => EmptyString
  | s :: rest => seg_text s +:+ flatten rest
  end.

Definition seg_ok (s : seg) : bool :=
  match s with
  | Txt t => all_chars not_open t
  | Tok name => all_chars not_brace name
  end.

(** Every token whose name has a value becomes that value, all at once. *)
Definition subst (vals : gmap string string) (s : seg) : seg :=
  match s with
  | Txt t => Txt t
  | Tok name =>
      match vals !! name with
      | Some v => Txt v
      | None => Tok name
      end
  end.

(** The replacements of [apply_template] done in the order of [ps]. *)
Definition apply_in_order (ps : list (string * string)) (s : string) : string :=
  fold_left (fun acc p => replace (placeholder (fst p)) (snd p) acc) ps s.

Definition is_send {Embed : Type} (a : action Embed) : bool :=
  match a with
  | Send _ _ _ => true
  | _ => false
  end.

Definition sends {Embed : Type} (l : list (action Embed)) : nat :=
  length (filter (fun a => is_send a = true) l).

(** The upstream API answers 200 with a payload that parses to [info]. *)
Definition fetched {Embed : Type} (py_repr : json -> string) (c : Collab Embed)
    (username : string) (info : StreamInfo) : Prop :=
  exists data,
    http_get c (request_url username) = inr (mkResponse 200 (inr data)) /\
    _parse_stream_info py_repr data = Ok info.

(** Lines 365-371 find the channel [channel] to post in. *)
Definition resolved (guild : Guild) (streamer_config : WatchRecord)
    (global_channel_id : option Z) (channel : Z) : Prop :=
  let id := py_or (channel_id streamer_config) global_channel_id in
  truthy_id id = true /\ get_channel guild (default 0%Z id) = Some channel.

(** The payload has no livestream: the key is missing, or null, or an
    object whose [is_live] is false. *)
Definition livestream_off (data : json) : Prop :=
  exists kvs,
    data = JObj kvs /\
    (assoc "livestream" kvs = None \/
     assoc "livestream" kvs = Some JNull \/
     exists ls, assoc "livestream" kvs = Some (JObj ls) /\
                assoc "is_live" ls = Some (JBool false)).

(** The fields read whatever the liveness have the shape the parser
    expects: [user] is missing or an object, [banner_image] is missing,
    falsy or an object. *)
Definition head_shaped (data : json) : Prop :=
  exists kvs,
    data = JObj kvs /\
    (assoc "user" kvs = None \/ exists u, assoc "user" kvs = Some (JObj u)) /\
    (forall b, assoc "banner_image" kvs = Some b -> truthy b = true -> is_dict b = true).

(** The world once the fetch has made sure the session is open. *)
Definition opened {Embed : Type} (w : world Embed) : world Embed :=
  mkWorld true (streamers w) (actions w) (logs w).

(** Lines 365-371 return before any transition: no channel id is set, or
    the id names no channel of the guild. *)
Definition unresolved (guild : Guild) (streamer_config : WatchRecord)
    (global_channel_id : option Z) : Prop :=
  let id := py_or (channel_id streamer_config) global_channel_id in
  truthy_id id = false \/ get_channel guild (default 0%Z id) = None.

(** Neither end of [s] is a whitespace or a slash. *)
Definition trimmed (s : string) : Prop :=
  (lstrip is_space s = s /\ rstrip is_space s = s) /\
  (lstrip is_slash s = s /\ rstrip is_slash s = s).

(** Every character of [s] is ASCII. *)
Definition ascii_only (s : string) : bool :=
  all_chars (fun c => (nat_of_ascii c <? 128)%nat) s.

(** The five placeholders with the values [apply_template] reads from
    [info], once the three fields that must be strings are [d], [g], [t]. *)
Definition placeholder_values (py_repr : json -> string) (info : StreamInfo)
    (d g t : string) : list (string * string) :=
  [("streamer", d); ("game", g); ("title", t);
   ("url", info_channel_url info);
   ("viewers", py_str py_repr (info_viewer_count info))].

(** ** Sample data: the channel "nova" of the specification's scenarios *)

Definition nova_live_payload : json :=
  JObj [("slug", JStr "nova");
        ("user", JObj [("username", JStr "Nova")]);
        ("livestream",
          JObj [("id", JStr "abc123");
                ("is_live", JBool true);
                ("session_title", JStr "Chess time");
                ("viewer_count", JInt 1234);
                ("categories", JArr [JObj [("name", JStr "Chess")]])])].

(** A live stream that carries no id. *)
Definition nova_anonymous_payload : json :=
  JObj [("slug", JStr "nova");
        ("user", JObj [("username", JStr "Nova")]);
        ("livestream",
          JObj [("is_live", JBool true); ("session_title", JStr "Chess time")])].

Definition nova_offline_payload : json :=
  JObj [("slug", JStr "nova");
        ("user", JObj [("username", JStr "Nova")]);
        ("livestream", JNull)].

Definition nova_live_info : StreamInfo :=
  mkStreamInfo (JBool true) (JStr "nova") (JStr "Nova") JNull
    "https://kick.com/nova" (JInt 0) (JBool false) JNull
    (JStr "abc123") (JStr "Chess time") (JInt 1234) (JStr "Chess") JNull JNull
    (JStr "en") (JBool false) [].

Definition nova_offline_info : StreamInfo :=
  mkStreamInfo (JBool false) (JStr "nova") (JStr "Nova") JNull
    "https://kick.com/nova" (JInt 0) (JBool false) JNull
    JNull JNull (JInt 0) JNull JNull JNull JNull (JBool false) [].

(** A channel whose display name is itself a placeholder. *)
Definition cascade_info : StreamInfo :=
  mkStreamInfo (JBool true) (JStr "nova") (JStr "{game}") JNull
    "https://kick.com/nova" (JInt 0) (JBool false) JNull
    (JInt 1) (JStr "Chess time") (JInt 5) (JStr "Chess") JNull JNull
    (JStr "en") (JBool false) [].

(** The record of "nova" posting in channel 10: before any stream, and
    after the notification 77 of session "abc123". *)
Definition nova_record : WatchRecord :=
  mkWatchRecord (Some 10%Z) None None (Some false) None false JNull.

Definition nova_live_record : WatchRecord :=
  mkWatchRecord (Some 10%Z) None None (Some false) (Some 77%Z) true (JStr "abc123").

(** The same two records with no channel of their own. *)
Definition nova_unrouted : WatchRecord :=
  mkWatchRecord None None None (Some false) None false JNull.

Definition nova_live_unrouted : WatchRecord :=
  mkWatchRecord None None None (Some false) (Some 77%Z) true (JStr "abc123").

Definition demo_guild : Guild := mkGuild 1 {[ 10%Z ]} ∅.

Definition no_repr (v : json) : string := "".

(** Embeds reduced to a title. *)
Definition title_embed (info : StreamInfo) (style : string) (v c : bool) : res string :=
  Ok (py_str no_repr (info_stream_title info)).

(** The offline embed, which does not build for a channel without avatar
    (line 270). *)
Definition offline_embed (info : StreamInfo) : res string :=
  if truthy (info_avatar_url info) then Ok "offline" else Raise AttributeError.

(** An upstream API that knows the channel "nova" and no other. *)
Definition kick_api (payload : json) (url : string) : net_error + response :=
  if String.eqb url "https://kick.com/api/v2/channels/nova"
  then inr (mkResponse 200 (inr payload))
  else inr (mkResponse 404 (inr JNull)).

(** An upstream API that answers every request with status [st]. *)
Definition status_api (st : Z) (url : string) : net_error + response :=
  inr (mkResponse st (inr JNull)).

(** A messaging API where every call succeeds, [send] giving message 77,
    and one that refuses every call. *)
Definition accepting (api : string -> net_error + response) : Collab string :=
  mkCollab api (fun _ _ _ => Done 77%Z) (fun _ m => Done m)
    (fun _ => Done tt) (fun _ _ _ => Done tt).

Definition refusing (api : string -> net_error + response) : Collab string :=
  mkCollab api (fun _ _ _ => Failed Forbidden) (fun _ _ => Failed Forbidden)
    (fun _ => Failed Forbidden) (fun _ _ _ => Failed Forbidden).

Definition world0 (r : WatchRecord) : world string :=
  mkWorld false {[ "nova" := r ]} [] [].

(** One check of "nova" in [demo_guild], detailed style, no guild-wide
    channel or role. *)
Definition demo_check (c : Collab string) (r : WatchRecord) (w : world string)
    : res unit * world string :=
  _check_single_streamer no_repr title_embed offline_embed c demo_guild "nova" r
    "detailed" true true false None None w.


(** ** Operator commands and loops around the check *)

Arguments lift {Embed A}.
Arguments try_except {Embed A}.
Arguments log {Embed}.
Arguments read_streamers {Embed}.
Arguments update_streamer {Embed}.

(** The settings of a guild, read with the defaults registered in
    [__init__]. *)
Record GuildSettings : Type := mkGuildSettings {
  global_channel_id : option Z;
  global_ping_role_id : option Z;
  check_interval : Z;
  embed_style : string;
  show_viewer_count : bool;
  show_category : bool;
  auto_delete : bool
}.

Definition default_guild : GuildSettings :=
  mkGuildSettings None None 60 "detailed" true true false.

Definition set_ping_role_id (role : option Z) (r : WatchRecord) : WatchRecord :=
  mkWatchRecord (channel_id r) role (custom_message r)
    (delete_after_offline r) (last_message_id r) (is_live r) (last_stream_id r).

Definition set_custom_message (m : option string) (r : WatchRecord) : WatchRecord :=
  mkWatchRecord (channel_id r) (ping_role_id r) m
    (delete_after_offline r) (last_message_id r) (is_live r) (last_stream_id r).

(** What a command hands to [ctx.send], by kind of message. *)
Inductive reply (Embed : Type) : Type :=
  | CouldNotFind (username : string)
  | NoChannelSet
  | AlreadyMonitored (display_name : json)
  | StreamerAdded (embed : Embed)
  | NotMonitored (username : string)
  | Removed (username : string)
  | PingRoleSet (username : option string) (role : Z)
  | PingRoleRemoved (username : option string)
  | CustomMessageSet (username message : string)
  | CustomMessageCleared (username : string)
  | IntervalTooShort
  | IntervalTooLong
  | IntervalSet (seconds : Z)
  | StyleInvalid
  | StyleSet (style : string)
  | NoStreamersToCheck
  | ForceChecked (checked live : nat).
Arguments CouldNotFind {Embed}.
Arguments NoChannelSet {Embed}.
Arguments AlreadyMonitored {Embed}.
Arguments StreamerAdded {Embed}.
Arguments NotMonitored {Embed}.
Arguments Removed {Embed}.
Arguments PingRoleSet {Embed}.
Arguments PingRoleRemoved {Embed}.
Arguments CustomMessageSet {Embed}.
Arguments CustomMessageCleared {Embed}.
Arguments IntervalTooShort {Embed}.
Arguments IntervalTooLong {Embed}.
Arguments IntervalSet {Embed}.
Arguments StyleInvalid {Embed}.
Arguments StyleSet {Embed}.
Arguments NoStreamersToCheck {Embed}.
Arguments ForceChecked {Embed}.

(** The username as every command but [add] reads it (lines 537, 618, 639,
    668): lower-cased and stripped of whitespace, slashes kept. *)
Definition command_username (username : string) : string :=
  strip is_space (lower username).

Declare Scope cmd_scope.
Delimit Scope cmd_scope with cmd.

Section Commands.

Variable Embed : Type.
Variable py_repr : json -> string.
Variable _build_live_embed : StreamInfo -> string -> bool -> bool -> res Embed.
Variable _build_offline_embed : StreamInfo -> res Embed.

(** The confirmation embed of [kickalert_add] (lines 515-526): it formats
    the follower count with a thousands separator and so can raise. *)
Variable added_embed : StreamInfo -> option Z -> res Embed.

Variable collab : Collab Embed.

Notation "x <- m ;; k" := (bind m (fun x => k))
  (at level 100, m at next level, right associativity) : cmd_scope.
Notation "m ;;; k" := (bind m (fun _ => k))
  (at level 100, right associativity) : cmd_scope.
Local Open Scope cmd_scope.

(** [streamers[username] = record] *)
Definition insert_streamer (username : string) (record : WatchRecord) : M Embed unit :=
  fun w => (Ok tt, mkWorld (session_open w) (<[ username := record ]> (streamers w))
                     (actions w) (logs w)).

(** Lines 505-513.  The record's [is_live] is only ever tested for truth
    (lines 359, 569, 937), so the model keeps the truth value of
    [info["is_live"]]. *)
Definition new_record (channel_id : option Z) (info : StreamInfo) : WatchRecord :=
  mkWatchRecord channel_id None None (Some false) None
    (truthy (info_is_live info)) (info_stream_id info).

(** Lines 475-528; [channel] is the id of the channel given, if any. *)
Definition kickalert_add (settings : GuildSettings) (username : string)
    (channel : option Z) : M Embed (reply Embed) :=
  let username := add_username username in
  data <- _fetch_channel_data collab username ;;
  match data with
  | None => ret (CouldNotFind username)
  | Some data =>
      info <- lift (_parse_stream_info py_repr data) ;;
      let channel_id := channel in
      if negb (truthy_id channel_id) && negb (truthy_id (global_channel_id settings))
      then ret NoChannelSet
      else
        streamers <- read_streamers ;;
        match streamers !! username with
        | Some _ => ret (AlreadyMonitored (info_display_name info))
        | None =>
            insert_streamer username (new_record channel_id info) ;;;
            embed <- lift (added_embed info channel) ;;
            ret (StreamerAdded embed)
        end
  end.

(** Lines 537-544. *)
Definition kickalert_remove (username : string) (streamers : gmap string WatchRecord)
    : reply Embed * gmap string WatchRecord :=
  let username := command_username username in
  match streamers !! username with
  | None => (NotMonitored username, streamers)
  | Some _ => (Removed username, delete username streamers)
  end.

(** Lines 617-626; [role] is the id of the role given. *)
Definition kickalert_setrole (role : Z) (username : option string)
    (settings : GuildSettings) (streamers : gmap string WatchRecord)
    : reply Embed * GuildSettings * gmap string WatchRecord :=
  if truthy_str username then
    let username := command_username (default "" username) in
    match streamers !! username with
    | None => (NotMonitored username, settings, streamers)
    | Some _ =>
        (PingRoleSet (Some username) role, settings,
         alter (set_ping_role_id (Some role)) username streamers)
    end
  else
    (PingRoleSet None role,
     mkGuildSettings (global_channel_id settings) (Some role) (check_interval settings)
       (embed_style settings) (show_viewer_count settings) (show_category settings)
       (auto_delete settings),
     streamers).

(** Lines 638-647. *)
Definition kickalert_removerole (username : option string)
    (settings : GuildSettings) (streamers : gmap string WatchRecord)
    : reply Embed * GuildSettings * gmap string WatchRecord :=
  if truthy_str username then
    let username := command_username (default "" username) in
    match streamers !! username with
    | None => (NotMonitored username, settings, streamers)
    | Some _ =>
        (PingRoleRemoved (Some username), settings,
         alter (set_ping_role_id None) username streamers)
    end
  else
    (PingRoleRemoved None,
     mkGuildSettings (global_channel_id settings) None (check_interval settings)
       (embed_style settings) (show_viewer_count settings) (show_category settings)
       (auto_delete settings),
     streamers).

(** Lines 668-678. *)
Definition kickalert_message (username : string) (message : option string)
    (streamers : gmap string WatchRecord) : reply Embed * gmap string WatchRecord :=
  let username := command_username username in
  match streamers !! username with
  | None => (NotMonitored username, streamers)
  | Some _ =>
      (if truthy_str message
       then CustomMessageSet username (default "" message)
       else CustomMessageCleared username,
       alter (set_custom_message message) username streamers)
  end.

(** Lines 689-695. *)
Definition kickalert_interval (seconds : Z) (settings : GuildSettings)
    : reply Embed * GuildSettings :=
  if (seconds <? 30)%Z then (IntervalTooShort, settings)
  else if (seconds >? 600)%Z then (IntervalTooLong, settings)
  else
    (IntervalSet seconds,
     mkGuildSettings (global_channel_id settings) (global_ping_role_id settings) seconds
       (embed_style settings) (show_viewer_count settings) (show_category settings)
       (auto_delete settings)).

(** Lines 708-713. *)
Definition kickalert_style (style : string) (settings : GuildSettings)
    : reply Embed * GuildSettings :=
  let style := lower style in
  if String.eqb style "detailed" || String.eqb style "minimal" then
    (StyleSet style,
     mkGuildSettings (global_channel_id settings) (global_ping_role_id settings)
       (check_interval settings) style (show_viewer_count settings)
       (show_category settings) (auto_delete settings))
  else (StyleInvalid, settings).

(** The call of lines 305-315 and 922-932: the check with the settings of
    the guild. *)
Definition check_with (settings : GuildSettings) (guild : Guild) (username : string)
    (streamer_config : WatchRecord) : M Embed unit :=
  _check_single_streamer py_repr _build_live_embed _build_offline_embed collab
    guild username streamer_config (embed_style settings) (show_viewer_count settings)
    (show_category settings) (auto_delete settings) (global_channel_id settings)
    (global_ping_role_id settings).

(** Lines 303-323, over the items of the guild's [streamers] snapshot in
    the order of the dict: an exception of a check is logged (line 317)
    and the loop goes on.  The pause between two checks has no effect on
    the state and is left out. *)
Fixpoint check_streamers (settings : GuildSettings) (guild : Guild)
    (items : list (string * WatchRecord)) : M Embed unit :=
  match items with
  | [] => ret tt
  | (username, streamer_config) :: rest =>
      try_except
        (check_with settings guild username streamer_config)
        (fun e => Some (log (ErrorCheckingStreamer username (guild_id guild) e))) ;;;
      check_streamers settings guild rest
  end.

(** Lines 920-942: the counters [checked] and [live]; an exception of a
    check is logged (line 942) and the item is not counted. *)
Fixpoint force_loop (settings : GuildSettings) (guild : Guild)
    (items : list (string * WatchRecord)) (checked live : nat) : M Embed (nat * nat) :=
  match items with
  | [] => ret (checked, live)
  | (username, streamer_config) :: rest =>
      counts <- try_except
                  (check_with settings guild username streamer_config ;;;
                   updated <- read_streamers ;;
                   ret (S checked,
                        match updated !! username with
                        | Some record => if is_live record then S live else live
                        | None => live
                        end))
                  (fun e => Some (log (ErrorForceChecking username e) ;;;
                                  ret (checked, live))) ;;
      force_loop settings guild rest (fst counts) (snd counts)
  end.

(** Lines 910-947; [items] are the items of the dict read at line 910. *)
Definition kickalert_force (settings : GuildSettings) (guild : Guild)
    (items : list (string * WatchRecord)) : M Embed (reply Embed) :=
  match items with
  | [] => ret NoStreamersToCheck
  | _ =>
      counts <- force_loop settings guild items 0 0 ;;
      ret (ForceChecked (fst counts) (snd counts))
  end.

End Commands.

Arguments insert_streamer {Embed}.
Arguments kickalert_add {Embed}.
Arguments kickalert_remove {Embed}.
Arguments kickalert_setrole {Embed}.
Arguments kickalert_removerole {Embed}.
Arguments kickalert_message {Embed}.
Arguments kickalert_interval {Embed}.
Arguments kickalert_style {Embed}.
Arguments check_with {Embed}.
Arguments check_streamers {Embed}.
Arguments force_loop {Embed}.
Arguments kickalert_force {Embed}.

(** ** Vocabulary of the further statements *)

Definition is_delete {Embed : Type} (a : action Embed) : bool :=
  match a with
  | Delete _ => true
  | _ => false
  end.

(** The calls of the went-offline branch (lines 421-433) on the stored
    [record], and those of the refresh (lines 440-447). *)
Definition offline_calls {Embed : Type} (_build_offline_embed : StreamInfo -> res Embed)
    (c : Collab Embed) (streamer_config : WatchRecord) (info : StreamInfo)
    (channel : Z) (auto_delete : bool) (record : WatchRecord) : list (action Embed) :=
  if truthy_id (last_message_id record) then
    let m := default 0%Z (last_message_id record) in
    FetchMessage channel m ::
    match channel_fetch_message c channel m with
    | Done old_msg =>
        if default auto_delete (delete_after_offline streamer_config)
        then [Delete old_msg]
        else match _build_offline_embed info with
             | Ok embed => [Edit old_msg (Some None) embed]
             | Raise _ => []
             end
    | Failed _ => []
    end
  else [].

(** The exception that leaves the went-offline branch, if any: one of
    [_build_offline_embed] that the [except] of line 432 does not catch,
    raised when the notification of the stored [record] was found and is
    to be edited. *)
Definition offline_failure {Embed : Type} (_build_offline_embed : StreamInfo -> res Embed)
    (c : Collab Embed) (streamer_config : WatchRecord) (info : StreamInfo)
    (channel : Z) (auto_delete : bool) (record : WatchRecord) : option exn :=
  if truthy_id (last_message_id record) then
    match channel_fetch_message c channel (default 0%Z (last_message_id record)) with
    | Done _ =>
        if default auto_delete (delete_after_offline streamer_config) then None
        else match _build_offline_embed info with
             | Ok _ | Raise (Discord _) => None
             | Raise e => Some e
             end
    | Failed _ => None
    end
  else None.

Definition refresh_calls {Embed : Type}
    (_build_live_embed : StreamInfo -> string -> bool -> bool -> res Embed)
    (c : Collab Embed) (streamer_config : WatchRecord) (info : StreamInfo)
    (channel : Z) (embed_style : string) (show_viewers show_category : bool)
    : list (action Embed) :=
  if truthy_id (last_message_id streamer_config) then
    let m := default 0%Z (last_message_id streamer_config) in
    FetchMessage channel m ::
    match channel_fetch_message c channel m with
    | Done old_msg =>
        match _build_live_embed info embed_style show_viewers show_category with
        | Ok embed => [Edit old_msg None embed]
        | Raise _ => []
        end
    | Failed _ => []
    end
  else [].

(** What the went-offline branch makes of the stored record. *)
Definition cleared (r : WatchRecord) : WatchRecord :=
  set_last_message_id None (set_is_live false r).

(** The shapes the calls of one check can take. *)
Inductive calls_shape {Embed : Type} (may_delete : bool) : list (action Embed) -> Prop :=
  | shape_none : calls_shape may_delete []
  | shape_send ch content embed : calls_shape may_delete [Send ch content embed]
  | shape_fetch ch m : calls_shape may_delete [FetchMessage ch m]
  | shape_edit ch m old_msg content embed :
      calls_shape may_delete [FetchMessage ch m; Edit old_msg content embed]
  | shape_delete ch m old_msg :
      may_delete = true -> calls_shape may_delete [FetchMessage ch m; Delete old_msg].

(** Two records agree on everything a transition reads or writes. *)
Definition same_transition_state (r r' : WatchRecord) : Prop :=
  channel_id r' = channel_id r /\
  delete_after_offline r' = delete_after_offline r /\
  last_message_id r' = last_message_id r /\
  is_live r' = is_live r /\
  last_stream_id r' = last_stream_id r.

Definition settings_valid (s : GuildSettings) : Prop :=
  (30 <= check_interval s <= 600)%Z /\
  (embed_style s = "detailed" \/ embed_style s = "minimal").

(** Where an exception of a check comes from: the parser, on a payload
    that is not [null], one of the two embed builders, or the content line
    of the notification. *)
Definition raised_by {Embed : Type} (py_repr : json -> string)
    (_build_live_embed : StreamInfo -> string -> bool -> bool -> res Embed)
    (_build_offline_embed : StreamInfo -> res Embed)
    (c : Collab Embed) (guild : Guild) (username : string)
    (streamer_config : WatchRecord) (embed_style : string)
    (show_viewers show_category : bool) (global_ping_role_id : option Z)
    (e : exn) : Prop :=
  exists data,
    http_get c (request_url username) = inr (mkResponse 200 (inr data)) /\
    data <> JNull /\
    (_parse_stream_info py_repr data = Raise e \/
     exists info,
       _parse_stream_info py_repr data = Ok info /\
       (_build_live_embed info embed_style show_viewers show_category = Raise e \/
        build_content py_repr guild streamer_config info
          (py_or (ping_role_id streamer_config) global_ping_role_id) = Raise e \/
        _build_offline_embed info = Raise e)).

(** The records that the two loops write for a check that raised. *)
Definition is_check_error (l : log_entry) : bool :=
  match l with
  | ErrorCheckingStreamer _ _ _ | ErrorForceChecking _ _ => true
  | _ => false
  end.

Definition check_errors (ls : list log_entry) : nat :=
  length (filter (fun l => is_check_error l = true) ls).

(** [w] with the log [lg], and the computations that only append to the
    log: run on a world with log [lg], they do what they do on the empty
    log and put what they log after [lg]. *)
Definition with_logs {Embed : Type} (lg : list log_entry) (w : world Embed) : world Embed :=
  mkWorld (session_open w) (streamers w) (actions w) lg.

Definition log_frame {Embed A : Type} (m : M Embed A) : Prop :=
  forall (w : world Embed) (lg : list log_entry),
    m (with_logs lg w)
    = (fst (m (with_logs [] w)),
       with_logs (lg ++ logs (snd (m (with_logs [] w)))) (snd (m (with_logs [] w)))).

(** The record of line 317 for the one of line 942. *)
Definition as_loop_record (guild : Z) (l : log_entry) : log_entry :=
  match l with
  | ErrorForceChecking username e => ErrorCheckingStreamer username guild e
  | _ => l
  end.

(** ** Further sample data *)

(** A stream that has ended but is still described by the payload. *)
Definition nova_ended_payload : json :=
  JObj [("slug", JStr "nova");
        ("livestream",
          JObj [("id", JInt 7); ("is_live", JInt 0);
                ("session_title", JStr "Chess time");
                ("viewer_count", JInt 12)])].

(** A live stream with the thumbnail as an object and the category in the
    singular. *)
Definition nova_stream : list (string * json) :=
  [("id", JInt 7); ("is_live", JBool true);
   ("thumbnail", JObj [("url", JStr "https://img.kick.com/t.png")]);
   ("categories", JArr []);
   ("category", JObj [("name", JStr "Chess")])].

Definition nova_stream_payload : list (string * json) :=
  [("slug", JStr "nova"); ("livestream", JObj nova_stream)].

Definition nova_null_user_payload : json :=
  JObj [("slug", JStr "nova"); ("user", JNull); ("livestream", JNull)].

(** The channel "nova" with an avatar, offline. *)
Definition nova_avatar_payload : json :=
  JObj [("slug", JStr "nova");
        ("user", JObj [("username", JStr "Nova");
                       ("profile_pic", JStr "https://img.kick.com/nova.png")]);
        ("livestream", JNull)].

Definition nova_avatar_info : StreamInfo :=
  mkStreamInfo (JBool false) (JStr "nova") (JStr "Nova")
    (JStr "https://img.kick.com/nova.png")
    "https://kick.com/nova" (JInt 0) (JBool false) JNull
    JNull JNull (JInt 0) JNull JNull JNull JNull (JBool false) [].

(** The confirmation of [kickalert_add] reduced to the display name. *)
Definition added_title (info : StreamInfo) (channel : option Z) : res string :=
  Ok (py_str no_repr (info_display_name info)).

Definition empty_world : world string := mkWorld false ∅ [] [].

(** [kickalert_add] of [username] for channel 10 in a guild with the
    default settings and no streamer yet. *)
Definition demo_add (c : Collab string) (username : string)
    : res (reply string) * world string :=
  kickalert_add no_repr added_title c default_guild username (Some 10%Z) empty_world.

(** * Properties *)

(** *** Strings *)

#[local] Arguments String.append : simpl nomatch.

Lemma append_nil_r (s : string) : s +:+ "" = s.
Proof. induction s as [|c s IH]; simpl; [reflexivity | now f_equal]. Qed.

Lemma append_assoc (a b c : string) : (a +:+ b) +:+ c = a +:+ (b +:+ c).
Proof. induction a as [|x a IH]; simpl; [reflexivity | now f_equal]. Qed.

Lemma lower_app (a b : string) : lower (a +:+ b) = lower a +:+ lower b.
Proof. induction a as [|c a IH]; simpl; [reflexivity | now f_equal]. Qed.

Lemma lower_char_space (c : ascii) : is_space (lower_char c) = is_space c.
Proof. destruct c as [[] [] [] [] [] [] [] []]; reflexivity. Qed.

Lemma lower_char_slash (c : ascii) : is_slash (lower_char c) = is_slash c.
Proof. destruct c as [[] [] [] [] [] [] [] []]; reflexivity. Qed.

Section Strip.

Variable p : ascii -> bool.

Lemma lstrip_all (ws s : string) :
  all_chars p ws = true -> lstrip p (ws +:+ s) = lstrip p s.
Proof.
  induction ws as [|c ws IH]; simpl; [reflexivity |].
  intros [Hc Hws]%andb_prop. rewrite Hc. auto.
Qed.

Lemma rstrip_all (ws s : string) :
  all_chars p ws = true -> rstrip p (s +:+ ws) = rstrip p s.
Proof.
  intros Hws. induction s as [|c s IH]; simpl.
  - induction ws as [|x ws IH]; simpl; [reflexivity |].
    simpl in Hws. apply andb_prop in Hws as [Hx Hws].
    rewrite (IH Hws), Hx. reflexivity.
  - now rewrite IH.
Qed.

Lemma lstrip_fix_app (a b : string) :
  lstrip p a = a -> a <> "" -> lstrip p (a +:+ b) = a +:+ b.
Proof.
  destruct a as [|c a]; [congruence |]. simpl. intros H _.
  destruct (p c); [| reflexivity].
  exfalso. clear b.
  assert (Hlen : forall s, (String.length (lstrip p s) <= String.length s)%nat).
  { induction s as [|x s IH]; simpl; [lia |]. destruct (p x); simpl; lia. }
  specialize (Hlen a). rewrite H in Hlen. simpl in Hlen. lia.
Qed.

Lemma rstrip_nonempty (a b : string) :
  rstrip p b <> "" -> rstrip p (a +:+ b) = a +:+ rstrip p b.
Proof.
  intros Hb. induction a as [|c a IH]; simpl; [reflexivity |].
  rewrite IH. destruct (a +:+ rstrip p b) eqn:E; [| reflexivity].
  destruct a; simpl in E; congruence.
Qed.

(** Characters outside [p] around a string whose ends are outside [p]. *)
Lemma strip_wrap (a x b : string) :
  all_chars p a = true -> all_chars p b = true ->
  lstrip p x = x -> rstrip p x = x ->
  strip p (a +:+ x +:+ b) = x.
Proof.
  intros Ha Hb Hl Hr. unfold strip. rewrite (lstrip_all a _ Ha).
  destruct x as [|c x].
  - simpl. rewrite <- (append_nil_r b), (lstrip_all b "" Hb).
    reflexivity.
  - rewrite lstrip_fix_app by congruence. rewrite (rstrip_all b _ Hb). exact Hr.
Qed.

Lemma lstrip_none (s : string) :
  all_chars (fun c => negb (p c)) s = true -> lstrip p s = s.
Proof.
  destruct s as [|c s]; simpl; [reflexivity |].
  intros [Hc _]%andb_prop. now destruct (p c).
Qed.

Lemma rstrip_none (s : string) :
  all_chars (fun c => negb (p c)) s = true -> rstrip p s = s.
Proof.
  induction s as [|c s IH]; simpl; [reflexivity |].
  intros [Hc Hs]%andb_prop. rewrite (IH Hs).
  destruct s; [| reflexivity]. now destruct (p c).
Qed.

Lemma lstrip_keep_app (a b : string) :
  lstrip p a = a -> lstrip p b = b -> lstrip p (a +:+ b) = a +:+ b.
Proof.
  intros Ha Hb. destruct a as [|c a]; [exact Hb |].
  apply lstrip_fix_app; congruence.
Qed.

Lemma rstrip_keep_app (a b : string) :
  rstrip p a = a -> rstrip p b = b -> rstrip p (a +:+ b) = a +:+ b.
Proof.
  intros Ha Hb. destruct b as [|c b]; [now rewrite append_nil_r |].
  rewrite rstrip_nonempty; rewrite Hb; congruence.
Qed.

End Strip.

Lemma all_chars_impl (p q : ascii -> bool) (s : string) :
  (forall c, p c = true -> q c = true) ->
  all_chars p s = true -> all_chars q s = true.
Proof.
  intros Hpq. induction s as [|c s IH]; simpl; [reflexivity |].
  intros [Hc Hs]%andb_prop. now rewrite (Hpq c Hc), (IH Hs).
Qed.

Lemma all_chars_lower (p : ascii -> bool) (s : string) :
  (forall c, p (lower_char c) = p c) ->
  all_chars p (lower s) = all_chars p s.
Proof.
  intros Hp. induction s as [|c s IH]; simpl; [reflexivity |]. now rewrite Hp, IH.
Qed.

Lemma lstrip_lower (p : ascii -> bool) (s : string) :
  (forall c, p (lower_char c) = p c) ->
  lstrip p (lower s) = lower (lstrip p s).
Proof.
  intros Hp. induction s as [|c s IH]; simpl; [reflexivity |].
  rewrite Hp. destruct (p c); [exact IH | reflexivity].
Qed.

Lemma rstrip_lower (p : ascii -> bool) (s : string) :
  (forall c, p (lower_char c) = p c) ->
  rstrip p (lower s) = lower (rstrip p s).
Proof.
  intros Hp. induction s as [|c s IH]; simpl; [reflexivity |].
  rewrite IH, Hp. destruct (rstrip p s); simpl; [| reflexivity].
  destruct (p c); reflexivity.
Qed.

Lemma slash_not_space (c : ascii) : is_slash c = true -> negb (is_space c) = true.
Proof. unfold is_slash. intros ->%Ascii.eqb_eq. reflexivity. Qed.

Lemma add_username_wrapped (ws1 sl1 u sl2 ws2 : string) :
  all_chars is_space ws1 = true -> all_chars is_space ws2 = true ->
  all_chars is_slash sl1 = true -> all_chars is_slash sl2 = true ->
  trimmed u ->
  add_username (ws1 +:+ sl1 +:+ u +:+ sl2 +:+ ws2) = lower u.
Proof.
  intros Hw1 Hw2 Hs1 Hs2 [[Hul Hur] [Hvl Hvr]]. unfold add_username.
  rewrite !lower_app.
  assert (Hsp := all_chars_lower is_space).
  assert (Hsl := all_chars_lower is_slash).
  replace (lower ws1 +:+ lower sl1 +:+ lower u +:+ lower sl2 +:+ lower ws2)
    with (lower ws1 +:+ (lower sl1 +:+ lower u +:+ lower sl2) +:+ lower ws2)
    by now rewrite !append_assoc.
  rewrite strip_wrap.
  - apply strip_wrap.
    + now rewrite Hsl by apply lower_char_slash.
    + now rewrite Hsl by apply lower_char_slash.
    + rewrite lstrip_lower by apply lower_char_slash. now rewrite Hvl.
    + rewrite rstrip_lower by apply lower_char_slash. now rewrite Hvr.
  - now rewrite Hsp by apply lower_char_space.
  - now rewrite Hsp by apply lower_char_space.
  - assert (H1 : lstrip is_space (lower sl1) = lower sl1).
    { apply lstrip_none. rewrite all_chars_lower.
      - eapply all_chars_impl; [apply slash_not_space | exact Hs1].
      - intros c. now rewrite lower_char_space. }
    assert (H2 : lstrip is_space (lower sl2) = lower sl2).
    { apply lstrip_none. rewrite all_chars_lower.
      - eapply all_chars_impl; [apply slash_not_space | exact Hs2].
      - intros c. now rewrite lower_char_space. }
    apply lstrip_keep_app; [exact H1 |]. apply lstrip_keep_app; [| exact H2].
    rewrite lstrip_lower by apply lower_char_space. now rewrite Hul.
  - assert (H1 : rstrip is_space (lower sl1) = lower sl1).
    { apply rstrip_none. rewrite all_chars_lower.
      - eapply all_chars_impl; [apply slash_not_space | exact Hs1].
      - intros c. now rewrite lower_char_space. }
    assert (H2 : rstrip is_space (lower sl2) = lower sl2).
    { apply rstrip_none. rewrite all_chars_lower.
      - eapply all_chars_impl; [apply slash_not_space | exact Hs2].
      - intros c. now rewrite lower_char_space. }
    apply rstrip_keep_app; [exact H1 |]. apply rstrip_keep_app; [| exact H2].
    rewrite rstrip_lower by apply lower_char_space. now rewrite Hur.
Qed.

(** *** Replacement in a flat template *)

Lemma starts_with_app (old t : string) : starts_with old (old +:+ t) = true.
Proof.
  induction old as [|a old IH]; simpl; [reflexivity |].
  now rewrite Ascii.eqb_refl, IH.
Qed.

Lemma replace_from_skip (old new u t : string) :
  replace_from old new (String.length u) (u +:+ t) = replace_from old new 0 t.
Proof. induction u as [|c u IH]; simpl; [reflexivity | exact IH]. Qed.

Lemma replace_from_match (old new t : string) :
  old <> "" ->
  replace_from old new 0 (old +:+ t) = new +:+ replace_from old new 0 t.
Proof.
  destruct old as [|a old]; [congruence |]. intros _.
  change (String a old +:+ t) with (String a (old +:+ t)).
  cbn [replace_from].
  change (String a (old +:+ t)) with (String a old +:+ t).
  rewrite starts_with_app. simpl String.length.
  replace (S (String.length old) - 1)%nat with (String.length old) by lia.
  now rewrite replace_from_skip.
Qed.

Lemma replace_from_cons (old new : string) (c : ascii) (s : string) :
  replace_from old new 0 (String c s)
  = if starts_with old (String c s)
    then new +:+ replace_from old new (String.length old - 1) s
    else String c (replace_from old new 0 s).
Proof. reflexivity. Qed.

Lemma starts_with_placeholder (n : string) (c : ascii) (s : string) :
  starts_with (placeholder n) (String c s)
  = Ascii.eqb "{" c && starts_with (n +:+ "}") s.
Proof. reflexivity. Qed.

Lemma append_cons (c : ascii) (a b : string) :
  String c a +:+ b = String c (a +:+ b).
Proof. reflexivity. Qed.

Lemma replace_from_text (name new u t : string) :
  all_chars not_open u = true ->
  replace_from (placeholder name) new 0 (u +:+ t)
  = u +:+ replace_from (placeholder name) new 0 t.
Proof.
  induction u as [|c u IH]; [reflexivity |].
  cbn [all_chars]. intros [Hc Hu]%andb_prop. unfold not_open in Hc.
  rewrite !append_cons, replace_from_cons, starts_with_placeholder.
  rewrite Ascii.eqb_sym. destruct (Ascii.eqb c "{"); [discriminate |].
  cbn [andb]. now rewrite IH.
Qed.

Lemma not_brace_close (c : ascii) :
  not_brace c = true -> Ascii.eqb c "}" = false.
Proof.
  unfold not_brace. intros [_ H]%andb_prop. now destruct (Ascii.eqb c "}").
Qed.

Lemma append_nil_l (s : string) : "" +:+ s = s.
Proof. reflexivity. Qed.

Lemma starts_with_other (n m rest : string) :
  all_chars not_brace n = true -> all_chars not_brace m = true -> n <> m ->
  starts_with (n +:+ "}") (m +:+ "}" +:+ rest) = false.
Proof.
  revert m. induction n as [|a n IH]; intros [|b m];
    cbn [all_chars]; rewrite ?append_cons, ?append_nil_l; cbn [starts_with].
  - congruence.
  - intros _ [Hb _]%andb_prop _.
    now rewrite Ascii.eqb_sym, (not_brace_close b Hb).
  - intros [Ha _]%andb_prop _ _.
    now rewrite (not_brace_close a Ha).
  - intros [_ Hn]%andb_prop [_ Hm]%andb_prop Hne.
    destruct (Ascii.eqb_spec a b) as [-> | _]; [| reflexivity].
    cbn [andb]. apply IH; congruence.
Qed.

Lemma not_brace_open (s : string) :
  all_chars not_brace s = true -> all_chars not_open s = true.
Proof.
  apply all_chars_impl. unfold not_brace, not_open. now intros c [H _]%andb_prop.
Qed.

Lemma replace_from_other (n m new t : string) :
  all_chars not_brace n = true -> all_chars not_brace m = true -> n <> m ->
  replace_from (placeholder n) new 0 (placeholder m +:+ t)
  = placeholder m +:+ replace_from (placeholder n) new 0 t.
Proof.
  intros Hn Hm Hne.
  change (placeholder m) with (String "{" (m +:+ "}")).
  rewrite !append_cons, replace_from_cons, starts_with_placeholder.
  rewrite !append_assoc, starts_with_other by assumption.
  rewrite andb_false_r. f_equal.
  rewrite replace_from_text by now apply not_brace_open.
  f_equal.
Qed.

Lemma placeholder_nonempty (n : string) : placeholder n <> "".
Proof. discriminate. Qed.

Lemma replace_placeholder (n new s : string) :
  replace (placeholder n) new s = replace_from (placeholder n) new 0 s.
Proof. reflexivity. Qed.

Lemma replace_flatten (n v : string) (segs : list seg) :
  all_chars not_brace n = true ->
  Forall (fun s => seg_ok s = true) segs ->
  replace (placeholder n) v (flatten segs)
  = flatten (map (subst {[ n := v ]}) segs).
Proof.
  intros Hn Hok. rewrite replace_placeholder.
  induction Hok as [|s segs Hs _ IH]; [reflexivity |].
  cbn [flatten map]. destruct s as [t | m]; cbn [seg_text subst].
  - cbn in Hs. now rewrite replace_from_text, IH.
  - cbn in Hs. destruct (decide (n = m)) as [<- | Hne].
    + rewrite lookup_singleton_eq. cbn [seg_text].
      now rewrite replace_from_match, IH by apply placeholder_nonempty.
    + rewrite lookup_singleton_ne by assumption. cbn [seg_text].
      now rewrite replace_from_other, IH.
Qed.

Lemma subst_ok (vals : gmap string string) (segs : list seg) :
  map_Forall (fun _ v => all_chars not_open v = true) vals ->
  Forall (fun s => seg_ok s = true) segs ->
  Forall (fun s => seg_ok s = true) (map (subst vals) segs).
Proof.
  intros Hv Hok. induction Hok as [|s segs Hs _ IH]; constructor; [| exact IH].
  destruct s as [t | m]; cbn; [exact Hs |].
  destruct (vals !! m) as [v|] eqn:E; cbn; [exact (Hv m v E) | exact Hs].
Qed.

Lemma subst_insert (n v : string) (vals : gmap string string) (s : seg) :
  subst vals (subst {[ n := v ]} s) = subst (<[ n := v ]> vals) s.
Proof.
  destruct s as [t | m]; cbn; [reflexivity |].
  destruct (decide (n = m)) as [<- | Hne].
  - now rewrite lookup_singleton_eq, lookup_insert_eq.
  - now rewrite lookup_singleton_ne, lookup_insert_ne by assumption.
Qed.

Lemma subst_empty (s : seg) : subst ∅ s = s.
Proof. destruct s as [t | m]; cbn; [reflexivity | now rewrite lookup_empty]. Qed.

Lemma apply_in_order_flatten (ps : list (string * string)) (segs : list seg) :
  Forall (fun p => all_chars not_brace (fst p) = true /\
                   all_chars not_open (snd p) = true) ps ->
  Forall (fun s => seg_ok s = true) segs ->
  apply_in_order ps (flatten segs)
  = flatten (map (subst (list_to_map ps)) segs).
Proof.
  intros Hps. revert segs.
  induction Hps as [|[n v] ps [Hn Hv] _ IH]; intros segs Hok.
  - cbn [apply_in_order fold_left list_to_map foldr].
    rewrite (map_ext _ id) by apply subst_empty. now rewrite map_id.
  - cbn [apply_in_order fold_left fst snd]. cbn [fst snd] in Hn, Hv.
    rewrite replace_flatten by assumption.
    change (fold_left _ ps ?s) with (apply_in_order ps s).
    rewrite IH.
    + f_equal. rewrite map_map. apply map_ext. intros s.
      now rewrite subst_insert.
    + apply subst_ok; [| exact Hok].
      intros k x. rewrite lookup_singleton_Some. now intros [_ <-].
Qed.


Section Facts.

Variable Embed : Type.
Variable py_repr : json -> string.
Variable _build_live_embed : StreamInfo -> string -> bool -> bool -> res Embed.
Variable _build_offline_embed : StreamInfo -> res Embed.

Local Abbreviation check := (_check_single_streamer py_repr _build_live_embed _build_offline_embed).
Local Abbreviation parse := (_parse_stream_info py_repr).

(** *** The parser *)

Lemma parse_not_live kvs info :
  (assoc "livestream" kvs = None \/
   assoc "livestream" kvs = Some JNull \/
   exists ls, assoc "livestream" kvs = Some (JObj ls) /\
              assoc "is_live" ls = Some (JBool false)) ->
  parse (JObj kvs) = Ok info ->
  info_is_live info = JBool false /\
  mkLiveFields (info_stream_id info) (info_stream_title info)
    (info_viewer_count info) (info_category info) (info_thumbnail_url info)
    (info_started_at info) (info_language info) (info_is_mature info)
    (info_tags info) = offline_fields.
Proof.
  intros Hoff. unfold _parse_stream_info. cbn [py_get res_bind].
  destruct Hoff as [H | [H | (ls & H & His)]]; rewrite H;
    cbn [py_get res_bind truthy andb]; rewrite ?His; cbn [res_bind truthy andb].
  all: repeat match goal with
         | |- context [py_get ?v _ _] => destruct v; cbn [py_get res_bind]; try discriminate
         | |- context [if ?b then _ else _] => destruct b; cbn [res_bind]; try discriminate
         end.
  all: intros [= <-]; split; reflexivity.
Qed.

Lemma parse_not_live_returns kvs :
  (assoc "livestream" kvs = None \/
   assoc "livestream" kvs = Some JNull \/
   exists ls, assoc "livestream" kvs = Some (JObj ls) /\
              assoc "is_live" ls = Some (JBool false)) ->
  (assoc "user" kvs = None \/ exists u, assoc "user" kvs = Some (JObj u)) ->
  (forall b, assoc "banner_image" kvs = Some b -> truthy b = true -> is_dict b = true) ->
  exists info, parse (JObj kvs) = Ok info.
Proof.
  intros Hoff Huser Hbanner. unfold _parse_stream_info. cbn [py_get res_bind].
  destruct Hoff as [H | [H | (ls & H & His)]]; rewrite H;
    cbn [py_get res_bind truthy andb]; rewrite ?His; cbn [res_bind truthy andb].
  all: destruct Huser as [Hu | (u & Hu)]; rewrite Hu; cbn [py_get res_bind].
  all: destruct (assoc "banner_image" kvs) as [b|] eqn:Hb; cbn [truthy res_bind py_get];
    [ destruct (truthy b) eqn:Tb;
      [ specialize (Hbanner b eq_refl Tb); destruct b; try discriminate;
        cbn [py_get res_bind] | ] | ];
    eexists; reflexivity.
Qed.

(** C3: a payload without a live stream is normalised to [is_live = False]
    with every live-only field at its default ([None], [0], [False], [[]]);
    the parser keeps no state, so nothing of an earlier fetch can show.  If
    the fields read before the liveness test are well shaped, the parser
    does return. *)
Theorem C3_not_live_defaults (data : json) :
  livestream_off data ->
  (forall info,
      parse data = Ok info ->
      info_is_live info = JBool false /\
      info_stream_id info = JNull /\
      info_stream_title info = JNull /\
      info_viewer_count info = JInt 0 /\
      info_category info = JNull /\
      info_thumbnail_url info = JNull /\
      info_started_at info = JNull /\
      info_language info = JNull /\
      info_is_mature info = JBool false /\
      info_tags info = []) /\
  (head_shaped data -> exists info, parse data = Ok info).
Proof.
  intros (kvs & -> & Hoff). split.
  - intros info Hp. destruct (parse_not_live kvs info Hoff Hp) as [Hl Hf].
    unfold offline_fields in Hf. injection Hf as -> -> -> -> -> -> -> -> ->.
    rewrite Hl. repeat split.
  - intros (kvs' & [= <-] & Hu & Hb). now apply parse_not_live_returns.
Qed.

(** C8: a payload whose [user] is null makes the parser raise, where a
    payload without [user], or with a null [banner_image], is parsed with
    the defaults. *)
Theorem C8_null_user_raises :
  _parse_stream_info py_repr
    (JObj [("slug", JStr "nova"); ("user", JNull); ("livestream", JNull)])
  = Raise AttributeError /\
  _parse_stream_info py_repr
    (JObj [("slug", JStr "nova"); ("banner_image", JNull); ("livestream", JNull)])
  = Ok (mkStreamInfo (JBool false) (JStr "nova") (JStr "nova") JNull
          "https://kick.com/nova" (JInt 0) (JBool false) JNull
          JNull JNull (JInt 0) JNull JNull JNull JNull (JBool false) []).
Proof. split; reflexivity. Qed.

(** *** The fetch *)

Lemma parse_ok_not_null (data : json) (info : StreamInfo) :
  parse data = Ok info -> data <> JNull.
Proof. intros H ->. discriminate H. Qed.

Lemma fetch_200 (c : Collab Embed) username data w :
  http_get c (request_url username) = inr (mkResponse 200 (inr data)) ->
  data <> JNull ->
  _fetch_channel_data c username w = (Ok (Some data), opened w).
Proof.
  intros H Hne. unfold _fetch_channel_data, bind, open_session. rewrite H.
  destruct data; try reflexivity. now destruct Hne.
Qed.

Lemma fetch_null (c : Collab Embed) username w :
  http_get c (request_url username) = inr (mkResponse 200 (inr JNull)) ->
  _fetch_channel_data c username w = (Ok None, opened w).
Proof.
  intros H. unfold _fetch_channel_data, bind, open_session. now rewrite H.
Qed.

(** The fetch gives a payload, or [None] for a [null] payload, or [None]
    and one record in the log. *)
Lemma fetch_cases (c : Collab Embed) username w :
  (exists data,
      http_get c (request_url username) = inr (mkResponse 200 (inr data)) /\
      data <> JNull /\
      _fetch_channel_data c username w = (Ok (Some data), opened w)) \/
  (http_get c (request_url username) = inr (mkResponse 200 (inr JNull)) /\
   _fetch_channel_data c username w = (Ok None, opened w)) \/
  (exists l,
      (forall data, http_get c (request_url username) <> inr (mkResponse 200 (inr data))) /\
      _fetch_channel_data c username w
      = (Ok None, mkWorld true (streamers w) (actions w) (logs w ++ [l])) /\
      (l = DebugNotFound username <->
       exists b, http_get c (request_url username) = inr (mkResponse 404 b)) /\
      is_check_error l = false).
Proof.
  destruct (http_get c (request_url username)) as [e | [st b]] eqn:Hget.
  - right. right. unfold _fetch_channel_data, bind, open_session, log, ret. rewrite Hget.
    destruct e; eexists; (split; [discriminate |]); cbn;
      (split; [reflexivity |]); (split; [| reflexivity]);
      split; try discriminate; intros (b & [=]).
  - destruct (Z.eqb_spec st 200) as [-> | Hne].
    + destruct b as [e | data].
      * right. right. unfold _fetch_channel_data, bind, open_session, log, ret.
        rewrite Hget.
        destruct e; eexists; (split; [discriminate |]); cbn;
          (split; [reflexivity |]); (split; [| reflexivity]);
          split; try discriminate; intros (b & [=]).
      * assert (Hcase : data = JNull \/ data <> JNull)
          by (destruct data; auto; right; discriminate).
        destruct Hcase as [-> | Hnull].
        -- right. left. split; [reflexivity |]. now apply fetch_null.
        -- left. exists data. split; [reflexivity |]. split; [exact Hnull |].
           now apply fetch_200.
    + right. right. unfold _fetch_channel_data, bind, open_session, log, ret.
      rewrite Hget. cbn [status body].
      destruct (Z.eqb_spec st 200) as [? | _]; [congruence |].
      destruct (Z.eqb_spec st 404) as [-> | Hne'].
      * eexists. split; [intros d [=] |]. cbn. split; [reflexivity |].
        split; [| reflexivity]. split; eauto.
      * eexists. split; [intros d [=]; congruence |]. cbn. split; [reflexivity |].
        split; [| reflexivity]. split; [discriminate |]. intros (b' & [=]). congruence.
Qed.

(** *** The custom message *)

Lemma apply_template_strings info d g t s :
  info_display_name info = JStr d ->
  info_category info = JStr g ->
  info_stream_title info = JStr t ->
  apply_template py_repr s info
  = Ok (apply_in_order (placeholder_values py_repr info d g t) s).
Proof.
  intros Hd Hg Ht. unfold apply_template. rewrite Hd, Hg, Ht. reflexivity.
Qed.

(** C6, amended: on a template made of text and of tokens [{name}], and
    with values free of opening braces, the five replacements amount to
    substituting every known token at once: each occurrence is replaced,
    any other token stays as it is, and the five replacements give the same
    string in whatever order they are made.  The template of the
    specification's example gives the string the specification expects. *)
Theorem C6_flat_template (info : StreamInfo) (segs : list seg) (d g t : string) :
  let vals := placeholder_values py_repr info d g t in
  info_display_name info = JStr d ->
  info_category info = JStr g ->
  info_stream_title info = JStr t ->
  Forall (fun s => seg_ok s = true) segs ->
  Forall (fun p => all_chars not_open (snd p) = true) vals ->
  apply_template py_repr (flatten segs) info
  = Ok (flatten (map (subst (list_to_map vals)) segs)) /\
  (forall ps, ps ≡ₚ vals ->
     apply_in_order ps (flatten segs)
     = flatten (map (subst (list_to_map vals)) segs)) /\
  (d = "Nova" -> g = "Chess" -> info_channel_url info = "https://kick.com/nova" ->
   apply_template py_repr "{streamer} playing {game} — {url}" info
   = Ok "Nova playing Chess — https://kick.com/nova").
Proof.
  intros vals Hd Hg Ht Hsegs Hvals.
  assert (Hnames : Forall (fun p => all_chars not_brace (fst p) = true) vals).
  { repeat constructor. }
  assert (Hall : forall ps, ps ≡ₚ vals ->
            apply_in_order ps (flatten segs)
            = flatten (map (subst (list_to_map vals)) segs)).
  { intros ps Hperm. rewrite apply_in_order_flatten; [| | exact Hsegs].
    - do 3 f_equal. apply list_to_map_proper; [| exact Hperm].
      rewrite Hperm. apply (bool_decide_unpack _). vm_compute. exact I.
    - rewrite Hperm. rewrite Forall_forall in Hnames, Hvals.
      apply Forall_forall. intros p Hp. split; auto. }
  split; [| split].
  - rewrite (apply_template_strings info d g t) by assumption.
    f_equal. now apply Hall.
  - exact Hall.
  - intros -> -> Hurl.
    rewrite (apply_template_strings info "Nova" "Chess" t) by assumption.
    unfold placeholder_values. rewrite Hurl. reflexivity.
Qed.

(** *** The check *)

Ltac run_handler :=
  cbn [except_discord ret streamers session_open actions logs].

Lemma check_fetch_failed (c : Collab Embed) guild username cfg style sv sc ad gch grole w :
  (forall data, http_get c (request_url username) <> inr (mkResponse 200 (inr data))) ->
  exists l,
    check c guild username cfg style sv sc ad gch grole w
    = (Ok tt, mkWorld true (streamers w) (actions w) (logs w ++ [l])).
Proof.
  intros Hno.
  destruct (fetch_cases c username w) as [(data & H & _) | [[H _] | (l & _ & Hf & _)]].
  - now destruct (Hno data).
  - now destruct (Hno JNull).
  - exists l. unfold _check_single_streamer, bind. now rewrite Hf.
Qed.

Lemma check_fetch_null (c : Collab Embed) guild username cfg style sv sc ad gch grole w :
  http_get c (request_url username) = inr (mkResponse 200 (inr JNull)) ->
  check c guild username cfg style sv sc ad gch grole w = (Ok tt, opened w).
Proof.
  intros H. unfold _check_single_streamer, bind.
  now rewrite (fetch_null c username w H).
Qed.

Lemma check_parse_raises (c : Collab Embed) guild username cfg style sv sc ad gch grole data e w :
  http_get c (request_url username) = inr (mkResponse 200 (inr data)) ->
  data <> JNull ->
  parse data = Raise e ->
  check c guild username cfg style sv sc ad gch grole w = (Raise e, opened w).
Proof.
  intros Hget Hne Hp. unfold _check_single_streamer, bind, lift.
  rewrite (fetch_200 c username data w Hget Hne), Hp. reflexivity.
Qed.

Lemma check_unresolved (c : Collab Embed) guild username cfg style sv sc ad gch grole data info w :
  http_get c (request_url username) = inr (mkResponse 200 (inr data)) ->
  parse data = Ok info ->
  unresolved guild cfg gch ->
  check c guild username cfg style sv sc ad gch grole w = (Ok tt, opened w).
Proof.
  intros Hget Hp Hun. unfold _check_single_streamer, bind, lift.
  rewrite (fetch_200 c username data w Hget (parse_ok_not_null data info Hp)), Hp.
  destruct Hun as [Hf | Hn].
  - now rewrite Hf.
  - rewrite Hn. now destruct (negb _).
Qed.

Lemma check_resolved (c : Collab Embed) guild username cfg style sv sc ad gch grole info ch w :
  fetched py_repr c username info ->
  resolved guild cfg gch ch ->
  check c guild username cfg style sv sc ad gch grole w
  = (if is_new_stream info cfg then
       went_live py_repr _build_live_embed c guild username cfg info ch
         style sv sc (py_or (ping_role_id cfg) grole)
     else if negb (truthy (info_is_live info)) && is_live cfg then
       went_offline _build_offline_embed c username cfg info ch ad
     else if truthy (info_is_live info) && is_live cfg && String.eqb style "detailed" then
       still_live _build_live_embed c cfg info ch style sv sc
     else ret tt) (opened w).
Proof.
  intros (data & Hget & Hp) [Ht Hch]. unfold _check_single_streamer, bind, lift.
  rewrite (fetch_200 c username data w Hget (parse_ok_not_null data info Hp)), Hp, Ht.
  cbn [negb]. now rewrite Hch.
Qed.

Lemma went_live_raises (c : Collab Embed) guild username cfg info ch style sv sc role e w :
  (_build_live_embed info style sv sc = Raise e \/
   exists embed, _build_live_embed info style sv sc = Ok embed /\
                 build_content py_repr guild cfg info role = Raise e) ->
  went_live py_repr _build_live_embed c guild username cfg info ch style sv sc role w
  = (Raise e, w).
Proof.
  unfold went_live, bind, lift. intros [-> | (embed & -> & ->)]; reflexivity.
Qed.

Lemma went_live_sent (c : Collab Embed) guild username cfg info ch style sv sc role
    embed content msg w :
  _build_live_embed info style sv sc = Ok embed ->
  build_content py_repr guild cfg info role = Ok content ->
  channel_send c ch content embed = Done msg ->
  went_live py_repr _build_live_embed c guild username cfg info ch style sv sc role w
  = (Ok tt,
     mkWorld (session_open w)
       (alter (fun r => set_last_message_id (Some msg)
                          (set_last_stream_id (info_stream_id info)
                             (set_is_live true r))) username (streamers w))
       (actions w ++ [Send ch content embed]) (logs w)).
Proof.
  intros He Hc Hs. unfold went_live, bind, lift, try_except, call, update_streamer.
  rewrite He, Hc, Hs. reflexivity.
Qed.

Lemma went_live_failed (c : Collab Embed) guild username cfg info ch style sv sc role
    embed content e w :
  _build_live_embed info style sv sc = Ok embed ->
  build_content py_repr guild cfg info role = Ok content ->
  channel_send c ch content embed = Failed e ->
  exists l,
    went_live py_repr _build_live_embed c guild username cfg info ch style sv sc role w
    = (Ok tt,
       mkWorld (session_open w) (streamers w)
         (actions w ++ [Send ch content embed]) (logs w ++ [l])).
Proof.
  intros He Hc Hs. unfold went_live, bind, lift, try_except, call, log.
  rewrite He, Hc, Hs. destruct e; eexists; reflexivity.
Qed.

Lemma sends_app (l1 l2 : list (action Embed)) : sends (l1 ++ l2) = (sends l1 + sends l2)%nat.
Proof. unfold sends. now rewrite filter_app, length_app. Qed.

Lemma went_offline_absent (c : Collab Embed) username cfg info ch ad w :
  streamers w !! username = None ->
  went_offline _build_offline_embed c username cfg info ch ad w = (Ok tt, w).
Proof.
  intros H. unfold went_offline, bind, read_streamers. now rewrite H.
Qed.

Lemma insert_as_alter (f : WatchRecord -> WatchRecord) (k : string) (r : WatchRecord)
    (m : gmap string WatchRecord) :
  m !! k = Some r -> <[ k := f r ]> m = alter f k m.
Proof.
  intros H. apply map_eq. intros j. destruct (decide (j = k)) as [-> | Hne].
  - now rewrite lookup_insert_eq, lookup_alter_eq, H.
  - now rewrite lookup_insert_ne, lookup_alter_ne by congruence.
Qed.

(** The went-offline branch on a streamer that is in the store: its calls,
    and whether it ends normally, with the record cleared, or by an
    exception of the builder, with only [is_live] written. *)
Lemma went_offline_run (c : Collab Embed) username cfg info ch ad record w :
  streamers w !! username = Some record ->
  went_offline _build_offline_embed c username cfg info ch ad w
  = (match offline_failure _build_offline_embed c cfg info ch ad record with
     | Some e => Raise e
     | None => Ok tt
     end,
     mkWorld (session_open w)
       (alter (match offline_failure _build_offline_embed c cfg info ch ad record with
               | Some _ => set_is_live false
               | None => cleared
               end) username (streamers w))
       (actions w ++ offline_calls _build_offline_embed c cfg info ch ad record)
       (logs w)).
Proof.
  intros H.
  assert (Hst : alter (set_last_message_id None) username
                  (alter (set_is_live false) username (streamers w))
                = alter cleared username (streamers w)).
  { now rewrite alter_alter_eq. }
  destruct w as [so st ac lg]. cbn [streamers] in *.
  unfold went_offline, offline_calls, offline_failure, bind, read_streamers,
    update_streamer, try_except, call, lift, ret.
  cbn [streamers session_open actions logs]. rewrite H.
  destruct (truthy_id (last_message_id record)).
  - destruct (channel_fetch_message c ch _) as [m | e].
    + destruct (default ad (delete_after_offline cfg)).
      * destruct (message_delete c m) as [[] | e]; run_handler;
          now rewrite Hst, <- app_assoc.
      * destruct (_build_offline_embed info) as [embed | e].
        -- destruct (message_edit c m _ _) as [[] | e]; run_handler;
             now rewrite Hst, <- app_assoc.
        -- destruct e; run_handler; rewrite ?Hst; reflexivity.
    + run_handler. now rewrite Hst.
  - run_handler. now rewrite Hst, app_nil_r.
Qed.

Lemma offline_calls_no_send (c : Collab Embed) cfg info ch ad record :
  sends (offline_calls _build_offline_embed c cfg info ch ad record) = 0%nat.
Proof.
  unfold offline_calls. destruct (truthy_id (last_message_id record)); [| reflexivity].
  destruct (channel_fetch_message c ch _) as [m | e]; [| reflexivity].
  destruct (default ad (delete_after_offline cfg)); [reflexivity |].
  destruct (_build_offline_embed info); reflexivity.
Qed.

Lemma offline_failure_none (c : Collab Embed) cfg info ch ad record :
  (truthy_id (last_message_id record) = true ->
   forall old_msg,
     channel_fetch_message c ch (default 0%Z (last_message_id record)) = Done old_msg ->
     default ad (delete_after_offline cfg) = false ->
     exists embed, _build_offline_embed info = Ok embed) ->
  offline_failure _build_offline_embed c cfg info ch ad record = None.
Proof.
  intros Hb. unfold offline_failure.
  destruct (truthy_id (last_message_id record)); [| reflexivity].
  destruct (channel_fetch_message c ch _) as [m | e]; [| reflexivity].
  destruct (default ad (delete_after_offline cfg)); [reflexivity |].
  destruct (Hb eq_refl m eq_refl eq_refl) as (embed & ->). reflexivity.
Qed.

Lemma still_live_frame (c : Collab Embed) cfg info ch style sv sc w :
  exists r acts,
    still_live _build_live_embed c cfg info ch style sv sc w
    = (r, mkWorld (session_open w) (streamers w) (actions w ++ acts) (logs w)) /\
    sends acts = 0%nat.
Proof.
  unfold still_live. destruct w as [so st ac lg].
  destruct (truthy_id (last_message_id cfg)).
  - unfold try_except, bind, call, lift. cbn [streamers session_open actions logs].
    destruct (channel_fetch_message c ch _) as [m | e].
    + destruct (_build_live_embed info style sv sc) as [embed | e].
      * destruct (message_edit c m None embed) as [[] | e];
          cbn [except_discord ret]; rewrite <- app_assoc;
          do 2 eexists; split; reflexivity.
      * cbn [except_discord]. destruct e; do 2 eexists; split; reflexivity.
    + cbn [except_discord ret]. do 2 eexists; split; reflexivity.
  - exists (Ok tt), []. rewrite app_nil_r. split; reflexivity.
Qed.

Lemma resolved_or_not guild cfg gch :
  unresolved guild cfg gch \/ exists ch, resolved guild cfg gch ch.
Proof.
  unfold unresolved, resolved.
  destruct (truthy_id (py_or (channel_id cfg) gch)); [| left; left; reflexivity].
  destruct (get_channel guild _) as [ch |].
  - right. exists ch. split; reflexivity.
  - left. right. reflexivity.
Qed.

Lemma check_not_new_no_send (c : Collab Embed) guild username cfg style sv sc ad gch grole w :
  (forall info, fetched py_repr c username info -> is_new_stream info cfg = false) ->
  sends (actions (snd (check c guild username cfg style sv sc ad gch grole w)))
  = sends (actions w).
Proof.
  intros Hold.
  destruct (fetch_cases c username w)
    as [(data & Hget & Hne & _) | [[Hnull _] | (l & Hno & _)]].
  2: { now rewrite (check_fetch_null c guild username cfg style sv sc ad gch grole w
                      Hnull). }
  2: { destruct (check_fetch_failed c guild username cfg style sv sc ad gch grole w Hno)
         as (l' & ->). reflexivity. }
  destruct (parse data) as [info | e] eqn:Hp.
  2: { now rewrite (check_parse_raises c guild username cfg style sv sc ad gch grole
                      data e w Hget Hne Hp). }
  destruct (resolved_or_not guild cfg gch) as [Hun | (ch & Hres)].
  { now rewrite (check_unresolved c guild username cfg style sv sc ad gch grole
                   data info w Hget Hp Hun). }
  assert (Hf : fetched py_repr c username info) by (exists data; auto).
  rewrite (check_resolved c guild username cfg style sv sc ad gch grole info ch w Hf Hres).
  rewrite (Hold info Hf).
  destruct (negb (truthy (info_is_live info)) && is_live cfg).
  - destruct (streamers (opened w) !! username) as [record |] eqn:Hrec.
    + rewrite (went_offline_run c username cfg info ch ad record (opened w) Hrec).
      cbn [snd actions opened]. rewrite sends_app, offline_calls_no_send. lia.
    + now rewrite (went_offline_absent c username cfg info ch ad (opened w) Hrec).
  - destruct (truthy (info_is_live info) && is_live cfg && String.eqb style "detailed").
    + destruct (still_live_frame c cfg info ch style sv sc (opened w))
        as (r & acts & -> & Hacts).
      cbn [snd actions opened]. rewrite sends_app, Hacts. lia.
    + reflexivity.
Qed.

(** C1, amended: when the fetch reports a live stream, the channel to post
    in resolves and the notification builds, a send is made exactly when
    the record was not live or the fetched session id is truthy and differs
    from the stored one.  The send is then the only call of the messaging
    API (no fetch, edit or delete of an earlier message), so a session
    change while live posts one new message.  After a send that succeeded,
    a later check that fetches an equal session id sends nothing. *)
Theorem C1_went_live_iff_new_session
    (c : Collab Embed) guild username cfg style sv sc ad gch grole info ch embed content w :
  let sid := info_stream_id info in
  let new_session :=
    negb (is_live cfg) || (truthy sid && negb (py_eq sid (last_stream_id cfg))) in
  let w' := snd (check c guild username cfg style sv sc ad gch grole w) in
  fetched py_repr c username info ->
  resolved guild cfg gch ch ->
  truthy (info_is_live info) = true ->
  _build_live_embed info style sv sc = Ok embed ->
  build_content py_repr guild cfg info (py_or (ping_role_id cfg) grole) = Ok content ->
  (new_session = true -> actions w' = (actions w ++ [Send ch content embed])%list) /\
  (new_session = false -> sends (actions w') = sends (actions w)) /\
  (forall msg,
      new_session = true ->
      channel_send c ch content embed = Done msg ->
      streamers w !! username = Some cfg ->
      let cfg' := set_last_message_id (Some msg) (set_last_stream_id sid (set_is_live true cfg)) in
      streamers w' !! username = Some cfg' /\
      forall (c2 : Collab Embed) style2 sv2 sc2 ad2 gch2 grole2 w2,
        (forall info2, fetched py_repr c2 username info2 ->
                       py_eq (info_stream_id info2) sid = true) ->
        sends (actions (snd (check c2 guild username cfg' style2 sv2 sc2 ad2 gch2 grole2 w2)))
        = sends (actions w2)).
Proof.
  intros sid new_session w' Hf Hres Hlive He Hc.
  assert (Hnew : is_new_stream info cfg = new_session).
  { unfold is_new_stream. now rewrite Hlive. }
  subst w'.
  rewrite (check_resolved c guild username cfg style sv sc ad gch grole info ch w Hf Hres).
  rewrite Hnew. split; [| split].
  - intros ->.
    destruct (channel_send c ch content embed) as [msg | e] eqn:Hs.
    + now rewrite (went_live_sent c guild username cfg info ch style sv sc _
                     embed content msg (opened w) He Hc Hs).
    + destruct (went_live_failed c guild username cfg info ch style sv sc _
                  embed content e (opened w) He Hc Hs) as (l & ->). reflexivity.
  - intros Hold. rewrite <- Hnew, <- (check_resolved c guild username cfg style sv sc ad
                                      gch grole info ch w Hf Hres).
    apply check_not_new_no_send. intros info' (data' & Hget' & Hp').
    destruct Hf as (data & Hget & Hp). rewrite Hget in Hget'.
    injection Hget' as <-. rewrite Hp in Hp'. injection Hp' as <-.
    now rewrite Hnew.
  - intros msg -> Hs Hrec.
    rewrite (went_live_sent c guild username cfg info ch style sv sc _
               embed content msg (opened w) He Hc Hs).
    cbn [snd streamers opened]. split.
    + now rewrite lookup_alter_eq, Hrec.
    + intros c2 style2 sv2 sc2 ad2 gch2 grole2 w2 Hsame.
      apply check_not_new_no_send. intros info2 Hf2.
      unfold is_new_stream. cbn [is_live last_stream_id set_last_message_id
                                 set_last_stream_id set_is_live negb orb].
      rewrite (Hsame info2 Hf2). cbn [negb]. now rewrite !andb_false_r.
Qed.

(** C2, amended: when the record was live, the fetch reports no live
    stream, the channel to post in resolves and the offline embed builds
    wherever the notification is found and is to be edited, the check
    returns and leaves the entity's record with [is_live = False] and
    [last_message_id = None], whatever the messaging API answers to the
    fetch, edit or delete of the earlier message; no other record
    changes. *)
Theorem C2_went_offline_clears
    (c : Collab Embed) guild username cfg style sv sc ad gch grole info ch record w :
  let r := check c guild username cfg style sv sc ad gch grole w in
  fetched py_repr c username info ->
  resolved guild cfg gch ch ->
  truthy (info_is_live info) = false ->
  is_live cfg = true ->
  streamers w !! username = Some record ->
  (truthy_id (last_message_id record) = true ->
   forall old_msg,
     channel_fetch_message c ch (default 0%Z (last_message_id record)) = Done old_msg ->
     default ad (delete_after_offline cfg) = false ->
     exists embed, _build_offline_embed info = Ok embed) ->
  fst r = Ok tt /\
  (exists record',
      streamers (snd r) !! username = Some record' /\
      is_live record' = false /\ last_message_id record' = None) /\
  streamers (snd r)
  = <[ username := set_last_message_id None (set_is_live false record) ]> (streamers w).
Proof.
  intros r Hf Hres Hoff Hwas Hrec Hbuilds. subst r.
  rewrite (check_resolved c guild username cfg style sv sc ad gch grole info ch w Hf Hres).
  unfold is_new_stream. rewrite Hoff, Hwas. cbn [andb negb].
  rewrite (went_offline_run c username cfg info ch ad record (opened w) Hrec).
  rewrite (offline_failure_none c cfg info ch ad record Hbuilds).
  cbn [fst snd streamers opened].
  rewrite <- (insert_as_alter cleared username record (streamers w) Hrec).
  unfold cleared. split; [reflexivity |]. split; [| reflexivity].
  eexists. rewrite lookup_insert_eq. split; [reflexivity |]. split; reflexivity.
Qed.

(** C4: when the check takes the went-live path and the send fails, the
    check returns normally, the [streamers] dict is left as it was (so
    [last_message_id] is not set), and the failed send is the only call of
    the messaging API. *)
Theorem C4_send_failure_swallowed
    (c : Collab Embed) guild username cfg style sv sc ad gch grole info ch embed content e w :
  let r := check c guild username cfg style sv sc ad gch grole w in
  fetched py_repr c username info ->
  resolved guild cfg gch ch ->
  is_new_stream info cfg = true ->
  _build_live_embed info style sv sc = Ok embed ->
  build_content py_repr guild cfg info (py_or (ping_role_id cfg) grole) = Ok content ->
  channel_send c ch content embed = Failed e ->
  fst r = Ok tt /\
  streamers (snd r) = streamers w /\
  actions (snd r) = (actions w ++ [Send ch content embed])%list.
Proof.
  intros r Hf Hres Hnew He Hc Hs. subst r.
  rewrite (check_resolved c guild username cfg style sv sc ad gch grole info ch w Hf Hres).
  rewrite Hnew.
  destruct (went_live_failed c guild username cfg info ch style sv sc _
              embed content e (opened w) He Hc Hs) as (l & ->).
  repeat split.
Qed.

(** C10: when no channel id is set, or the id names no channel of the
    guild, the check calls the messaging API not at all and leaves the
    [streamers] dict as it was, whatever the fetch returned. *)
Theorem C10_unresolved_channel_frame
    (c : Collab Embed) guild username cfg style sv sc ad gch grole w :
  let r := check c guild username cfg style sv sc ad gch grole w in
  unresolved guild cfg gch ->
  streamers (snd r) = streamers w /\ actions (snd r) = actions w.
Proof.
  intros r Hun. subst r.
  destruct (fetch_cases c username w)
    as [(data & Hget & Hne & _) | [[Hnull _] | (l & Hno & _)]].
  - destruct (parse data) as [info | e] eqn:Hp.
    + now rewrite (check_unresolved c guild username cfg style sv sc ad gch grole
                     data info w Hget Hp Hun).
    + now rewrite (check_parse_raises c guild username cfg style sv sc ad gch grole
                     data e w Hget Hne Hp).
  - now rewrite (check_fetch_null c guild username cfg style sv sc ad gch grole w Hnull).
  - destruct (check_fetch_failed c guild username cfg style sv sc ad gch grole w Hno)
      as (l' & ->). split; reflexivity.
Qed.

(** *** Usernames and outcomes of the fetch *)

(** C7, amended: on a 404 the fetch returns [None], and it returns the same
    [None] on any other answer than a decodable 200, be it another status,
    a timeout or a network fault; it never raises and touches neither the
    [streamers] dict nor the messaging API.  Only the log tells a 404 (a
    debug record) from the rest. *)
Theorem C7_absent_on_every_failure (c : Collab Embed) (username : string) (w : world Embed) :
  (forall data, http_get c (request_url username) <> inr (mkResponse 200 (inr data))) ->
  exists l,
    _fetch_channel_data c username w
    = (Ok None, mkWorld true (streamers w) (actions w) (logs w ++ [l])%list) /\
    (l = DebugNotFound username <->
     exists b, http_get c (request_url username) = inr (mkResponse 404 b)).
Proof.
  intros Hno.
  destruct (fetch_cases c username w)
    as [(data & H & _) | [[H _] | (l & _ & Hf & Hl & _)]].
  - now destruct (Hno data).
  - now destruct (Hno JNull).
  - eauto.
Qed.

Lemma lower_char_idem (c : ascii) : lower_char (lower_char c) = lower_char c.
Proof. destruct c as [[] [] [] [] [] [] [] []]; reflexivity. Qed.

Lemma lower_idem (s : string) : lower (lower s) = lower s.
Proof.
  induction s as [|c s IH]; [reflexivity |].
  cbn [lower]. now rewrite lower_char_idem, IH.
Qed.

Lemma fetch_same_url (c : Collab Embed) (a b : string) (w : world Embed) :
  request_url a = request_url b ->
  fst (_fetch_channel_data c a w) = fst (_fetch_channel_data c b w).
Proof.
  intros Hurl. unfold _fetch_channel_data, bind, open_session, log, ret.
  rewrite Hurl.
  destruct (http_get c (request_url b)) as [[] | [st [[] | data]]]; cbn [status body];
    try reflexivity;
    destruct (st =? 200)%Z; try (destruct data; reflexivity); try reflexivity;
    destruct (st =? 404)%Z; reflexivity.
Qed.

(** C9, amended, for names of ASCII characters: the fetch lower-cases the
    username and does nothing else to it, so two usernames that differ
    only in case give the same request and the same result.  Whitespace
    and slashes around the name are removed by the add command, which
    lower-cases, strips whitespace and then strips slashes before it calls
    the fetch: for a name wrapped in slashes and then in whitespace it
    requests the name itself. *)
Theorem C9_fetch_lower_cases (c : Collab Embed) (a b ws1 sl1 sl2 ws2 : string) :
  ascii_only a = true -> ascii_only b = true ->
  lower a = lower b ->
  all_chars is_space ws1 = true -> all_chars is_space ws2 = true ->
  all_chars is_slash sl1 = true -> all_chars is_slash sl2 = true ->
  trimmed a ->
  request_url a = request_url b /\
  (forall w : world Embed,
      fst (_fetch_channel_data c a w) = fst (_fetch_channel_data c b w)) /\
  request_url (add_username (ws1 +:+ sl1 +:+ a +:+ sl2 +:+ ws2)) = request_url a.
Proof.
  intros _ _ Hab Hw1 Hw2 Hs1 Hs2 Ha.
  assert (Hurl : request_url a = request_url b).
  { unfold request_url. now rewrite Hab. }
  split; [exact Hurl |]. split.
  - intros w. now apply fetch_same_url.
  - rewrite add_username_wrapped by assumption.
    unfold request_url. now rewrite lower_idem.
Qed.

(** *** The scheduler *)

Lemma py_min_le (x : Z) (xs : list Z) : (py_min x xs <= x)%Z.
Proof.
  unfold py_min. revert x. induction xs as [|z xs IH]; intros x; cbn [fold_left].
  - lia.
  - specialize (IH (Z.min x z)). lia.
Qed.

Lemma py_min_spec (x : Z) (xs : list Z) :
  py_min x xs ∈ x :: xs /\ forall y, y ∈ x :: xs -> (py_min x xs <= y)%Z.
Proof.
  revert x. induction xs as [|z xs IH]; intros x.
  - split; [apply elem_of_cons; now left |].
    intros y ->%list_elem_of_singleton. unfold py_min. cbn. lia.
  - change (py_min x (z :: xs)) with (py_min (Z.min x z) xs).
    destruct (IH (Z.min x z)) as [Hin Hle]. split.
    + apply elem_of_cons in Hin as [-> | Hin].
      * destruct (Z.min_spec x z) as [[_ ->] | [_ ->]];
          rewrite !elem_of_cons; auto.
      * rewrite !elem_of_cons; auto.
    + intros y Hy. pose proof (py_min_le (Z.min x z) xs).
      rewrite !elem_of_cons in Hy. destruct Hy as [-> | [-> | Hy]]; [lia | lia |].
      apply Hle, elem_of_cons. now right.
Qed.

End Facts.

(** C5: the sleep after a cycle is 60 when no guild has a streamer, and
    otherwise the larger of 30 and the least check interval (60 where none
    was set) among the guilds that have one; intervals 45 and 20 give 30. *)
Theorem C5_sleep_time (all_guilds : list (Z * GuildData)) :
  let watched (g : Z * GuildData) := gd_streamers (snd g) <> ∅ in
  let interval (g : Z * GuildData) := default 60%Z (gd_check_interval (snd g)) in
  ((forall g, g ∈ all_guilds -> ~ watched g) -> sleep_time all_guilds = 60%Z) /\
  ((exists g, g ∈ all_guilds /\ watched g) ->
   exists g, g ∈ all_guilds /\ watched g /\
     (forall g', g' ∈ all_guilds -> watched g' -> (interval g <= interval g')%Z) /\
     sleep_time all_guilds = Z.max 30 (interval g)) /\
  sleep_time [(1%Z, mkGuildData {[ "nova" := nova_record ]} (Some 45%Z));
              (2%Z, mkGuildData {[ "luna" := nova_record ]} (Some 20%Z))] = 30%Z.
Proof.
  intros watched interval.
  assert (Hmem : forall g, g ∈ filter watched all_guilds <-> watched g /\ g ∈ all_guilds).
  { intros g. apply list_elem_of_filter. }
  unfold sleep_time, intervals. fold watched.
  destruct (filter watched all_guilds) as [| g1 L] eqn:HL.
  - split; [reflexivity |]. split; [| reflexivity].
    intros (g & Hg & Hw). exfalso.
    assert (Hin : g ∈ @nil (Z * GuildData)) by (apply Hmem; auto).
    now apply elem_of_nil in Hin.
  - split; [| split; [| reflexivity]].
    + intros Hnone. exfalso. apply (Hnone g1); apply Hmem, elem_of_cons; auto.
    + intros _. cbn [map].
      destruct (py_min_spec (interval g1) (map interval L)) as [Hin Hle].
      change (interval g1 :: map interval L) with (map interval (g1 :: L)) in Hin, Hle.
      apply list_elem_of_In, in_map_iff in Hin as (g & Hg & Hin%list_elem_of_In).
      apply Hmem in Hin as [Hw Hall].
      exists g. split; [exact Hall |]. split; [exact Hw |]. split.
      * intros g' Hall' Hw'. rewrite Hg. apply Hle.
        apply list_elem_of_In, in_map. apply list_elem_of_In, Hmem. auto.
      * change (Z.max (py_min (interval g1) (map interval L)) 30 = Z.max 30 (interval g)).
        rewrite Hg. apply Z.max_comm.
Qed.

(** * Further properties *)

Section MoreFacts.

Variable Embed : Type.
Variable py_repr : json -> string.
Variable _build_live_embed : StreamInfo -> string -> bool -> bool -> res Embed.
Variable _build_offline_embed : StreamInfo -> res Embed.
Variable added_embed : StreamInfo -> option Z -> res Embed.

Local Abbreviation check := (_check_single_streamer py_repr _build_live_embed _build_offline_embed).
Local Abbreviation parse := (_parse_stream_info py_repr).

(** *** The branches of the check, call by call *)

Ltac handler_step :=
  cbn [except_discord ret streamers session_open actions logs].

Lemma alter_absent (f : WatchRecord -> WatchRecord) (k : string)
    (m : gmap string WatchRecord) :
  m !! k = None -> alter f k m = m.
Proof.
  intros H. apply map_eq. intros j. destruct (decide (j = k)) as [-> | Hne].
  - now rewrite lookup_alter_eq, H.
  - now rewrite lookup_alter_ne by congruence.
Qed.

Lemma still_live_run (c : Collab Embed) cfg info ch style sv sc w :
  exists r,
    still_live _build_live_embed c cfg info ch style sv sc w
    = (r,
       mkWorld (session_open w) (streamers w)
         (actions w ++ refresh_calls _build_live_embed c cfg info ch style sv sc)
         (logs w)) /\
    (forall e, r = Raise e -> _build_live_embed info style sv sc = Raise e) /\
    (forall embed, _build_live_embed info style sv sc = Ok embed -> r = Ok tt).
Proof.
  unfold still_live, refresh_calls. destruct w as [so st ac lg].
  destruct (truthy_id (last_message_id cfg)).
  - unfold try_except, bind, call, lift. cbn [streamers session_open actions logs].
    destruct (channel_fetch_message c ch _) as [m | e].
    + destruct (_build_live_embed info style sv sc) as [embed | e].
      * destruct (message_edit c m None embed) as [[] | e];
          cbn [except_discord ret]; rewrite <- app_assoc;
          eexists; (split; [reflexivity |]); (split; [discriminate | reflexivity]).
      * cbn [except_discord]. destruct e as [| | | | d]; cbn [ret];
          eexists; (split; [reflexivity |]); split;
          try discriminate; try (intros e' [= <-]; reflexivity);
          try reflexivity.
    + cbn [except_discord ret]. eexists. split; [reflexivity |].
      split; [discriminate | reflexivity].
  - exists (Ok tt). rewrite app_nil_r. split; [reflexivity |].
    split; [discriminate | reflexivity].
Qed.

Lemma went_live_run (c : Collab Embed) guild username cfg info ch style sv sc role w :
  let m := went_live py_repr _build_live_embed c guild username cfg info ch style sv sc role w in
  (exists e,
      m = (Raise e, w) /\
      (_build_live_embed info style sv sc = Raise e \/
       build_content py_repr guild cfg info role = Raise e)) \/
  (exists embed content,
      _build_live_embed info style sv sc = Ok embed /\
      build_content py_repr guild cfg info role = Ok content /\
      fst m = Ok tt /\
      actions (snd m) = (actions w ++ [Send ch content embed])%list /\
      session_open (snd m) = session_open w /\
      ((exists msg,
           channel_send c ch content embed = Done msg /\
           streamers (snd m)
           = alter (fun r => set_last_message_id (Some msg)
                               (set_last_stream_id (info_stream_id info)
                                  (set_is_live true r))) username (streamers w)) \/
       ((exists e, channel_send c ch content embed = Failed e) /\
        streamers (snd m) = streamers w)) /\
      (exists ls, logs (snd m) = (logs w ++ ls)%list /\ check_errors ls = 0%nat)).
Proof.
  intros m. subst m.
  destruct (_build_live_embed info style sv sc) as [embed | e] eqn:He.
  2: { left. exists e. split; [| now left].
       apply went_live_raises. now left. }
  destruct (build_content py_repr guild cfg info role) as [content | e] eqn:Hc.
  2: { left. exists e. split; [| now right].
       apply went_live_raises. right. eauto. }
  right. exists embed, content. split; [reflexivity |]. split; [reflexivity |].
  destruct (channel_send c ch content embed) as [msg | e] eqn:Hs.
  - rewrite (went_live_sent Embed py_repr _build_live_embed c guild username cfg info ch
               style sv sc role embed content msg w He Hc Hs).
    cbn [fst snd actions session_open streamers logs].
    do 3 (split; [reflexivity |]). split; [left; eauto |].
    exists []. now rewrite app_nil_r.
  - unfold went_live, bind, lift, try_except, call, log. rewrite He, Hc, Hs.
    destruct e; cbn [fst snd actions session_open streamers logs];
      do 3 (split; [reflexivity |]); (split; [right; eauto |]);
      eexists [_]; split; reflexivity.
Qed.


Lemma offline_calls_shape (c : Collab Embed) cfg info ch ad record :
  calls_shape (default ad (delete_after_offline cfg))
    (offline_calls _build_offline_embed c cfg info ch ad record).
Proof.
  unfold offline_calls. destruct (truthy_id (last_message_id record)); [| constructor].
  destruct (channel_fetch_message c ch _) as [m | e]; [| constructor].
  destruct (default ad (delete_after_offline cfg)) eqn:Hd; [now constructor |].
  destruct (_build_offline_embed info); constructor.
Qed.

Lemma refresh_calls_shape (c : Collab Embed) cfg info ch style sv sc (d : bool) :
  calls_shape d (refresh_calls _build_live_embed c cfg info ch style sv sc).
Proof.
  unfold refresh_calls. destruct (truthy_id (last_message_id cfg)); [| constructor].
  destruct (channel_fetch_message c ch _) as [m | e]; [| constructor].
  destruct (_build_live_embed info style sv sc); constructor.
Qed.

Lemma calls_shape_sends (d : bool) (acts : list (action Embed)) :
  calls_shape d acts -> (sends acts <= 1)%nat /\ (length acts <= 2)%nat.
Proof. intros []; (split; [vm_compute; lia | cbn; lia]). Qed.

Lemma calls_shape_no_delete (acts : list (action Embed)) :
  calls_shape false acts -> forall a, a ∈ acts -> is_delete a = false.
Proof.
  intros H a Ha. inversion H; subst; try discriminate;
    repeat (apply elem_of_cons in Ha as [-> | Ha]; [reflexivity |]);
    now apply elem_of_nil in Ha.
Qed.

Lemma refresh_calls_no_send (c : Collab Embed) cfg info ch style sv sc :
  sends (refresh_calls _build_live_embed c cfg info ch style sv sc) = 0%nat.
Proof.
  unfold refresh_calls. destruct (truthy_id (last_message_id cfg)); [| reflexivity].
  destruct (channel_fetch_message c ch _) as [m | e]; [| reflexivity].
  destruct (_build_live_embed info style sv sc); reflexivity.
Qed.

Lemma check_errors_app (l1 l2 : list log_entry) :
  check_errors (l1 ++ l2) = (check_errors l1 + check_errors l2)%nat.
Proof. unfold check_errors. now rewrite filter_app, length_app. Qed.

Lemma check_errors_one (l : log_entry) :
  check_errors [l] = if is_check_error l then 1%nat else 0%nat.
Proof. destruct l; reflexivity. Qed.

Ltac summary_goals := split; [| split; [| split; [| split; [| split]]]].

(** One check, whatever its branch: the calls it adds, the one record it
    may rewrite, what it logs, and where an exception comes from. *)
Lemma check_summary (c : Collab Embed) guild username cfg style sv sc ad gch grole w :
  let r := check c guild username cfg style sv sc ad gch grole w in
  exists acts f ls,
    actions (snd r) = (actions w ++ acts)%list /\
    calls_shape (default ad (delete_after_offline cfg)) acts /\
    streamers (snd r) = alter f username (streamers w) /\
    session_open (snd r) = true /\
    (logs (snd r) = (logs w ++ ls)%list /\ check_errors ls = 0%nat) /\
    (forall e, fst r = Raise e ->
       raised_by py_repr _build_live_embed _build_offline_embed c guild username cfg
         style sv sc grole e /\
       sends acts = 0%nat /\
       (streamers (snd r) = streamers w \/
        exists info,
          fetched py_repr c username info /\
          truthy (info_is_live info) = false /\
          _build_offline_embed info = Raise e /\
          streamers (snd r) = alter (set_is_live false) username (streamers w))).
Proof.
  intros r. subst r.
  assert (Hid : alter id username (streamers w) = streamers w) by now apply alter_id.
  destruct (fetch_cases Embed c username w)
    as [(data & Hget & Hne & _) | [[Hnull _] | (l & Hno & Hfetch & _ & Hl)]].
  2: { rewrite (check_fetch_null Embed py_repr _build_live_embed _build_offline_embed
                  c guild username cfg style sv sc ad gch grole w Hnull).
       exists [], id, []. cbn [fst snd actions streamers session_open logs opened].
       rewrite !app_nil_r, Hid.
       summary_goals; try reflexivity; [constructor | now split | discriminate]. }
  2: { unfold _check_single_streamer, bind. rewrite Hfetch.
       exists [], id, [l]. cbn [fst snd actions streamers session_open logs ret].
       rewrite app_nil_r, Hid.
       summary_goals; try reflexivity; [constructor | | discriminate].
       split; [reflexivity |]. now rewrite check_errors_one, Hl. }
  destruct (parse data) as [info | e] eqn:Hp.
  2: { rewrite (check_parse_raises Embed py_repr _build_live_embed _build_offline_embed
                  c guild username cfg style sv sc ad gch grole data e w Hget Hne Hp).
       exists [], id, []. cbn [fst snd actions streamers session_open logs opened].
       rewrite !app_nil_r, Hid.
       summary_goals; try reflexivity; [constructor | now split |].
       intros e' [= <-]. split; [| split; [reflexivity | now left]].
       exists data. auto. }
  destruct (resolved_or_not guild cfg gch) as [Hun | (ch & Hres)].
  { rewrite (check_unresolved Embed py_repr _build_live_embed _build_offline_embed
               c guild username cfg style sv sc ad gch grole data info w Hget Hp Hun).
    exists [], id, []. cbn [fst snd actions streamers session_open logs opened].
    rewrite !app_nil_r, Hid.
    summary_goals; try reflexivity; [constructor | now split | discriminate]. }
  assert (Hf : fetched py_repr c username info) by (exists data; auto).
  rewrite (check_resolved Embed py_repr _build_live_embed _build_offline_embed
             c guild username cfg style sv sc ad gch grole info ch w Hf Hres).
  destruct (is_new_stream info cfg).
  { destruct (went_live_run c guild username cfg info ch style sv sc
                (py_or (ping_role_id cfg) grole) (opened w))
      as [(e & -> & Hsrc) | (embed & content & He & Hc & Hok & Hacts & Hso & Hst & Hlog)].
    - exists [], id, []. cbn [fst snd actions streamers session_open logs opened].
      rewrite !app_nil_r, Hid.
      summary_goals; try reflexivity; [constructor | now split |].
      intros e' [= <-]. split; [| split; [reflexivity | now left]].
      exists data. split; [exact Hget |]. split; [exact Hne |]. right. exists info.
      split; [exact Hp |]. destruct Hsrc; auto.
    - destruct Hlog as (ls & Hlogs & Hls).
      destruct Hst as [(msg & _ & Hst) | [_ Hst]].
      + eexists [_], _, ls. rewrite Hacts, Hst, Hok, Hso, Hlogs.
        cbn [actions streamers session_open logs opened].
        summary_goals; try reflexivity; [constructor | now split | discriminate].
      + exists [Send ch content embed], id, ls. rewrite Hacts, Hst, Hok, Hso, Hlogs.
        cbn [actions streamers session_open logs opened]. rewrite Hid.
        summary_goals; try reflexivity; [constructor | now split | discriminate]. }
  destruct (negb (truthy (info_is_live info)) && is_live cfg) eqn:Hoff.
  { destruct (streamers (opened w) !! username) as [record |] eqn:Hrec.
    - rewrite (went_offline_run Embed _build_offline_embed c username cfg info ch ad
                 record (opened w) Hrec).
      exists (offline_calls _build_offline_embed c cfg info ch ad record).
      eexists _, []. cbn [fst snd actions streamers session_open logs opened].
      rewrite (app_nil_r (logs w)).
      summary_goals; try reflexivity; [apply offline_calls_shape | now split |].
      intros e He. apply andb_prop in Hoff as [Hlive _].
      apply negb_true_iff in Hlive.
      destruct (offline_failure _ c cfg info ch ad record) as [e' |] eqn:Hfail;
        [| discriminate He].
      injection He as <-.
      assert (Hb : _build_offline_embed info = Raise e').
      { revert Hfail. unfold offline_failure.
        destruct (truthy_id _); [| discriminate].
        destruct (channel_fetch_message c ch _); [| discriminate].
        destruct (default ad _); [discriminate |].
        destruct (_build_offline_embed info) as [embed | []]; congruence. }
      split; [| split; [apply offline_calls_no_send |]].
      + exists data. split; [exact Hget |]. split; [exact Hne |]. right. exists info. auto.
      + right. exists info. auto.
    - rewrite (went_offline_absent Embed _build_offline_embed c username cfg info ch ad
                 (opened w) Hrec).
      exists [], id, []. cbn [fst snd actions streamers session_open logs opened].
      rewrite !app_nil_r, Hid.
      summary_goals; try reflexivity; [constructor | now split | discriminate]. }
  destruct (truthy (info_is_live info) && is_live cfg && String.eqb style "detailed").
  { destruct (still_live_run c cfg info ch style sv sc (opened w)) as (r & -> & Hraise & _).
    exists (refresh_calls _build_live_embed c cfg info ch style sv sc), id, [].
    cbn [fst snd actions streamers session_open logs opened].
    rewrite Hid, (app_nil_r (logs w)).
    summary_goals; try reflexivity; [apply refresh_calls_shape | now split |].
    intros e He. split; [| split; [apply refresh_calls_no_send | now left]].
    exists data. split; [exact Hget |]. split; [exact Hne |]. right. exists info. auto. }
  exists [], id, []. cbn [fst snd actions streamers session_open logs opened ret].
  rewrite !app_nil_r, Hid.
  summary_goals; try reflexivity; [constructor | now split | discriminate].
Qed.

(** *** The parser, read from its result *)

Lemma parse_fields (data : json) (info : StreamInfo) :
  parse data = Ok info ->
  exists kvs lf,
    data = JObj kvs /\
    (if truthy (info_is_live info) && truthy (default JNull (assoc "livestream" kvs))
     then live_fields (default JNull (assoc "livestream" kvs))
     else Ok offline_fields) = Ok lf /\
    mkLiveFields (info_stream_id info) (info_stream_title info)
      (info_viewer_count info) (info_category info) (info_thumbnail_url info)
      (info_started_at info) (info_language info) (info_is_mature info)
      (info_tags info) = lf /\
    (match default JNull (assoc "livestream" kvs) with
     | JNull => Ok (JBool false)
     | _ => py_get (default JNull (assoc "livestream" kvs)) "is_live" (JBool false)
     end) = Ok (info_is_live info).
Proof.
  intros H. destruct data as [| | | | | kvs]; try discriminate.
  exists kvs. unfold _parse_stream_info in H. cbn [py_get res_bind] in H.
  repeat match type of H with
         | res_bind ?m _ = _ => destruct m eqn:?; cbn [res_bind] in H; try discriminate
         end.
  injection H as <-. cbn [info_is_live info_stream_id info_stream_title
    info_viewer_count info_category info_thumbnail_url info_started_at info_language
    info_is_mature info_tags].
  match goal with
  | E : (if truthy _ && _ then _ else _) = Ok ?lf |- _ =>
      exists lf; destruct lf; cbn [default];
      (split; [reflexivity |]); (split; [exact E |]); (split; [reflexivity | assumption])
  end.
Qed.

(** X1: whenever the parser returns an [info] whose [is_live] is falsy,
    every live-only field of it is at its default, whatever the payload. *)
Theorem X1_falsy_live_means_defaults (data : json) (info : StreamInfo) :
  _parse_stream_info py_repr data = Ok info ->
  truthy (info_is_live info) = false ->
  info_stream_id info = JNull /\
  info_stream_title info = JNull /\
  info_viewer_count info = JInt 0 /\
  info_category info = JNull /\
  info_thumbnail_url info = JNull /\
  info_started_at info = JNull /\
  info_language info = JNull /\
  info_is_mature info = JBool false /\
  info_tags info = [].
Proof.
  intros Hp Hl. destruct (parse_fields data info Hp) as (kvs & lf & _ & Hlf & Hf & _).
  rewrite Hl in Hlf. cbn [andb] in Hlf. injection Hlf as <-.
  unfold offline_fields in Hf. injection Hf as -> -> -> -> -> -> -> -> ->.
  repeat split.
Qed.

Lemma parse_live_fields (kvs ls : list (string * json)) (info : StreamInfo) :
  assoc "livestream" kvs = Some (JObj ls) ->
  truthy (default (JBool false) (assoc "is_live" ls)) = true ->
  parse (JObj kvs) = Ok info ->
  live_fields (JObj ls)
  = Ok (mkLiveFields (info_stream_id info) (info_stream_title info)
          (info_viewer_count info) (info_category info) (info_thumbnail_url info)
          (info_started_at info) (info_language info) (info_is_mature info)
          (info_tags info)).
Proof.
  intros Hls Hlive Hp.
  destruct (parse_fields _ info Hp) as (kvs' & lf & [= <-] & Hlf & Hf & His).
  rewrite Hls in Hlf, His. cbn [default from_option id py_get] in Hlf, His.
  injection His as His.
  assert (Hl : truthy (info_is_live info) = true) by (rewrite <- His; exact Hlive).
  rewrite Hl in Hlf.
  assert (Hne : truthy (JObj ls) = true).
  { destruct ls; [discriminate Hlive | reflexivity]. }
  rewrite Hne in Hlf. cbn [andb] in Hlf. now rewrite Hf.
Qed.

(** X2: on a live stream the thumbnail is read the same from both forms
    the API uses: an object gives its [url] ([None] if it has none), any
    other value is taken as it is, and a missing key gives [None]. *)
Theorem X2_thumbnail_forms (kvs ls : list (string * json)) (info : StreamInfo) :
  assoc "livestream" kvs = Some (JObj ls) ->
  truthy (default (JBool false) (assoc "is_live" ls)) = true ->
  _parse_stream_info py_repr (JObj kvs) = Ok info ->
  info_thumbnail_url info
  = match assoc "thumbnail" ls with
    | Some (JObj th) => default JNull (assoc "url" th)
    | Some u => u
    | None => JNull
    end.
Proof.
  intros Hls Hlive Hp. pose proof (parse_live_fields kvs ls info Hls Hlive Hp) as H.
  unfold live_fields in H. cbn [py_get res_bind] in H.
  repeat match type of H with
         | res_bind ?m _ = _ => destruct m eqn:?; cbn [res_bind] in H; try discriminate
         end.
  injection H as _ _ _ _ <- _ _ _ _.
  match goal with
  | E : context [is_dict] |- _ => revert E
  end.
  destruct (assoc "thumbnail" ls) as [[| | | | | th] |]; cbn; intros [= <-]; reflexivity.
Qed.

(** X3: on a live stream the category is the name of the first entry of a
    non-empty [categories] list, else the name of a non-empty [category]
    object, else "Unknown"; an entry or object without a name gives
    "Unknown" too. *)
Theorem X3_category_precedence (kvs ls : list (string * json)) (info : StreamInfo) :
  assoc "livestream" kvs = Some (JObj ls) ->
  truthy (default (JBool false) (assoc "is_live" ls)) = true ->
  _parse_stream_info py_repr (JObj kvs) = Ok info ->
  (forall c0 rest,
      assoc "categories" ls = Some (JArr (JObj c0 :: rest)) ->
      info_category info = default (JStr "Unknown") (assoc "name" c0)) /\
  (forall cat,
      truthy (default JNull (assoc "categories" ls)) = false ->
      assoc "category" ls = Some (JObj cat) ->
      info_category info
      = match cat with
        | [] => JStr "Unknown"
        | _ => default (JStr "Unknown") (assoc "name" cat)
        end) /\
  (truthy (default JNull (assoc "categories" ls)) = false ->
   truthy (default JNull (assoc "category" ls)) = false ->
   info_category info = JStr "Unknown").
Proof.
  intros Hls Hlive Hp. pose proof (parse_live_fields kvs ls info Hls Hlive Hp) as H.
  unfold live_fields in H. cbn [py_get res_bind] in H.
  repeat match type of H with
         | res_bind ?m _ = _ => destruct m eqn:?; cbn [res_bind] in H; try discriminate
         end.
  injection H as _ _ _ <- _ _ _ _ _.
  match goal with
  | E : context [py_item0] |- _ => rename E into Hcat
  end.
  split; [| split].
  - intros c0 rest Hc. rewrite Hc in Hcat. cbn in Hcat. injection Hcat as <-. reflexivity.
  - intros cat Hc Hc'. rewrite Hc' in Hcat.
    destruct (assoc "categories" ls) as [cats |]; cbn in Hc; rewrite ?Hc in Hcat;
      destruct cat; cbn in Hcat; injection Hcat as <-; reflexivity.
  - intros Hc Hc'.
    destruct (assoc "categories" ls) as [cats |]; cbn in Hc; rewrite ?Hc in Hcat;
      (destruct (assoc "category" ls) as [cat' |]; cbn in Hc'; rewrite ?Hc' in Hcat);
      cbn in Hcat; injection Hcat as <-; reflexivity.
Qed.

(** *** The check, whatever its branch *)

(** X4: the calls one check makes to the messaging API are nothing, one
    send, one fetch, a fetch followed by one edit, or a fetch followed by
    one delete, the last only where the record's [delete_after_offline]
    (or, if the record has none, [auto_delete]) is true.  So a check sends
    at most once, and a send comes with no other call. *)
Theorem X4_check_calls_shape
    (c : Collab Embed) guild username cfg style sv sc ad gch grole w :
  let r := _check_single_streamer py_repr _build_live_embed _build_offline_embed
             c guild username cfg style sv sc ad gch grole w in
  exists acts,
    actions (snd r) = (actions w ++ acts)%list /\
    calls_shape (default ad (delete_after_offline cfg)) acts /\
    (sends acts <= 1)%nat /\
    (length acts <= 2)%nat /\
    (sends acts = 1%nat -> length acts = 1%nat).
Proof.
  intros r. subst r.
  destruct (check_summary c guild username cfg style sv sc ad gch grole w)
    as (acts & f & ls & Hacts & Hshape & _).
  exists acts. split; [exact Hacts |]. split; [exact Hshape |].
  destruct (calls_shape_sends _ acts Hshape) as [Hs Hl].
  split; [exact Hs |]. split; [exact Hl |].
  destruct Hshape; vm_compute; congruence.
Qed.

(** X5: a check leaves the session open, never adds or removes a key of
    the store, leaves the record of every other streamer as it is, and
    does not bring back a streamer that was removed from the store. *)
Theorem X5_check_frame
    (c : Collab Embed) guild username cfg style sv sc ad gch grole w :
  let r := _check_single_streamer py_repr _build_live_embed _build_offline_embed
             c guild username cfg style sv sc ad gch grole w in
  session_open (snd r) = true /\
  (forall other, streamers (snd r) !! other = None <-> streamers w !! other = None) /\
  (forall other, other <> username -> streamers (snd r) !! other = streamers w !! other) /\
  (streamers w !! username = None -> streamers (snd r) = streamers w).
Proof.
  intros r. subst r.
  destruct (check_summary c guild username cfg style sv sc ad gch grole w)
    as (acts & f & ls & _ & _ & Hst & Hso & _).
  split; [exact Hso |]. rewrite Hst. split; [| split].
  - intros other. destruct (decide (other = username)) as [-> | Hne].
    + rewrite lookup_alter_eq. destruct (streamers w !! username); cbn; split; congruence.
    + now rewrite lookup_alter_ne by congruence.
  - intros other Hne. now rewrite lookup_alter_ne by congruence.
  - apply alter_absent.
Qed.

(** X6: an exception of a check comes from the parser, from one of the
    two embed builders or from the content line, never from a call of the
    messaging API, and the check that raises has sent nothing.  It has
    changed no record either, unless the exception is one of the offline
    embed's builder: then the streamer was fetched offline and its record,
    if it is in the store, has [is_live] set to [False] and nothing else
    changed, so it keeps the id of its notification. *)
Theorem X6_check_raise_sources
    (c : Collab Embed) guild username cfg style sv sc ad gch grole w e :
  let r := _check_single_streamer py_repr _build_live_embed _build_offline_embed
             c guild username cfg style sv sc ad gch grole w in
  fst r = Raise e ->
  raised_by py_repr _build_live_embed _build_offline_embed c guild username cfg
    style sv sc grole e /\
  sends (actions (snd r)) = sends (actions w) /\
  (streamers (snd r) = streamers w \/
   exists info,
     fetched py_repr c username info /\
     truthy (info_is_live info) = false /\
     _build_offline_embed info = Raise e /\
     streamers (snd r) = alter (set_is_live false) username (streamers w)).
Proof.
  intros r. subst r.
  destruct (check_summary c guild username cfg style sv sc ad gch grole w)
    as (acts & f & ls & Hacts & _ & _ & _ & _ & Hraise).
  intros He. destruct (Hraise e He) as (Hby & Hs & Hst).
  split; [exact Hby |]. split; [| exact Hst].
  rewrite Hacts, sends_app, Hs. lia.
Qed.

(** X7: a check does nothing but open the session when the streamer is
    offline and recorded as offline, and when a stream that is not new is
    live under a style other than "detailed". *)
Theorem X7_check_quiet
    (c : Collab Embed) guild username cfg style sv sc ad gch grole info w :
  fetched py_repr c username info ->
  (truthy (info_is_live info) = false /\ is_live cfg = false) \/
  (is_new_stream info cfg = false /\ truthy (info_is_live info) = true /\
   String.eqb style "detailed" = false) ->
  _check_single_streamer py_repr _build_live_embed _build_offline_embed
    c guild username cfg style sv sc ad gch grole w
  = (Ok tt, opened w).
Proof.
  intros Hf Hcase. pose proof Hf as (data & Hget & Hp).
  destruct (resolved_or_not guild cfg gch) as [Hun | (ch & Hres)].
  { exact (check_unresolved Embed py_repr _build_live_embed _build_offline_embed
             c guild username cfg style sv sc ad gch grole data info w Hget Hp Hun). }
  rewrite (check_resolved Embed py_repr _build_live_embed _build_offline_embed
             c guild username cfg style sv sc ad gch grole info ch w Hf Hres).
  destruct Hcase as [[Hl Hw] | (Hn & Hl & Hs)].
  - unfold is_new_stream. rewrite Hl, Hw. reflexivity.
  - rewrite Hn, Hl, Hs. cbn [negb andb]. now rewrite andb_false_r.
Qed.

(** X8: when a streamer recorded as live is fetched offline and the old
    notification is found, the check fetches the message whose id is in
    the store (not the one of the snapshot it was called with).  If the
    snapshot's [delete_after_offline] (else [auto_delete]) is true it
    deletes the message; otherwise it builds the offline embed and
    replaces the message by it, with no content.  In both cases the record
    is cleared, whether the delete or edit succeeds or not.  If the
    offline embed does not build, the check raises after the fetch: the
    record has [is_live] set to [False] and keeps the id of the
    notification. *)
Theorem X8_went_offline_calls
    (c : Collab Embed) guild username cfg style sv sc ad gch grole info ch record m old_msg w :
  let r := _check_single_streamer py_repr _build_live_embed _build_offline_embed
             c guild username cfg style sv sc ad gch grole w in
  fetched py_repr c username info ->
  resolved guild cfg gch ch ->
  truthy (info_is_live info) = false ->
  is_live cfg = true ->
  streamers w !! username = Some record ->
  last_message_id record = Some m ->
  m <> 0%Z ->
  channel_fetch_message c ch m = Done old_msg ->
  (default ad (delete_after_offline cfg) = true ->
   r = (Ok tt,
        mkWorld true
          (<[ username := set_last_message_id None (set_is_live false record) ]>
             (streamers w))
          (actions w ++ [FetchMessage ch m; Delete old_msg]) (logs w))) /\
  (forall embed,
      default ad (delete_after_offline cfg) = false ->
      _build_offline_embed info = Ok embed ->
      r = (Ok tt,
           mkWorld true
             (<[ username := set_last_message_id None (set_is_live false record) ]>
                (streamers w))
             (actions w ++ [FetchMessage ch m; Edit old_msg (Some None) embed]) (logs w))) /\
  (forall e,
      default ad (delete_after_offline cfg) = false ->
      _build_offline_embed info = Raise e ->
      (forall d, e <> Discord d) ->
      r = (Raise e,
           mkWorld true (<[ username := set_is_live false record ]> (streamers w))
             (actions w ++ [FetchMessage ch m]) (logs w))).
Proof.
  intros r Hf Hres Hl Hw Hrec Hm Hne Hfetch. subst r.
  rewrite (check_resolved Embed py_repr _build_live_embed _build_offline_embed
             c guild username cfg style sv sc ad gch grole info ch w Hf Hres).
  unfold is_new_stream. rewrite Hl, Hw. cbn [negb andb].
  rewrite (went_offline_run Embed _build_offline_embed c username cfg info ch ad record
             (opened w) Hrec).
  cbn [session_open streamers actions logs opened].
  pose proof (insert_as_alter cleared username record (streamers w) Hrec) as Hclear.
  pose proof (insert_as_alter (set_is_live false) username record (streamers w) Hrec)
    as Hmark.
  unfold cleared in Hclear at 1.
  unfold offline_calls, offline_failure. rewrite Hm.
  cbn [truthy_id default from_option id].
  destruct (Z.eqb_spec m 0) as [-> | _]; [now destruct Hne |]. cbn [negb].
  rewrite Hfetch. split; [| split].
  - intros ->. now rewrite Hclear.
  - intros embed -> ->. now rewrite Hclear.
  - intros e -> -> Hd. destruct e; try (now rewrite Hmark). now destruct (Hd e).
Qed.

(** X9: when a stream that is not new is live under the "detailed" style
    and the notification of the snapshot is found, the check edits it to
    the rebuilt embed, leaving its content, and changes no record, whether
    the edit succeeds or not. *)
Theorem X9_refresh_calls
    (c : Collab Embed) guild username cfg sv sc ad gch grole info ch m old_msg embed w :
  fetched py_repr c username info ->
  resolved guild cfg gch ch ->
  truthy (info_is_live info) = true ->
  is_new_stream info cfg = false ->
  last_message_id cfg = Some m ->
  m <> 0%Z ->
  channel_fetch_message c ch m = Done old_msg ->
  _build_live_embed info "detailed" sv sc = Ok embed ->
  _check_single_streamer py_repr _build_live_embed _build_offline_embed
    c guild username cfg "detailed" sv sc ad gch grole w
  = (Ok tt,
     mkWorld true (streamers w)
       (actions w ++ [FetchMessage ch m; Edit old_msg None embed]) (logs w)).
Proof.
  intros Hf Hres Hl Hn Hm Hne Hfetch He.
  rewrite (check_resolved Embed py_repr _build_live_embed _build_offline_embed
             c guild username cfg "detailed" sv sc ad gch grole info ch w Hf Hres).
  rewrite Hn. pose proof Hn as Hw. unfold is_new_stream in Hw. rewrite Hl in Hw.
  destruct (is_live cfg); [| discriminate Hw].
  rewrite Hl. cbn [negb andb String.eqb Ascii.eqb Bool.eqb].
  destruct (still_live_run c cfg info ch "detailed" sv sc (opened w))
    as (r & -> & _ & Hok).
  rewrite (Hok embed He). unfold refresh_calls. rewrite Hm.
  cbn [truthy_id default from_option id].
  destruct (Z.eqb_spec m 0) as [-> | _]; [now destruct Hne |]. cbn [negb].
  now rewrite Hfetch, He.
Qed.

(** X10: for a record whose [delete_after_offline] is set, the guild's
    [auto_delete] has no effect on the check.  The record that
    [kickalert_add] creates has it set to [False], so its notifications
    are edited, never deleted, whatever [auto_delete] is. *)
Theorem X10_auto_delete_overridden
    (c : Collab Embed) guild username cfg style sv sc ad ad' gch grole w :
  delete_after_offline cfg <> None ->
  _check_single_streamer py_repr _build_live_embed _build_offline_embed
    c guild username cfg style sv sc ad gch grole w
  = _check_single_streamer py_repr _build_live_embed _build_offline_embed
      c guild username cfg style sv sc ad' gch grole w /\
  (delete_after_offline cfg = Some false ->
   forall a,
     a ∈ actions (snd (_check_single_streamer py_repr _build_live_embed
                         _build_offline_embed c guild username cfg style sv sc ad
                         gch grole w)) ->
     is_delete a = true -> a ∈ actions w).
Proof.
  intros Hset. split.
  - unfold _check_single_streamer, went_offline.
    destruct (delete_after_offline cfg) as [b |]; [reflexivity | now destruct Hset].
  - intros Hfalse a Ha Hdel.
    destruct (check_summary c guild username cfg style sv sc ad gch grole w)
      as (acts & f & ls & Hacts & Hshape & _).
    rewrite Hacts in Ha. rewrite Hfalse in Hshape. cbn in Hshape.
    apply elem_of_app in Ha as [Ha | Ha]; [exact Ha |].
    rewrite (calls_shape_no_delete acts Hshape a Ha) in Hdel. discriminate.
Qed.

(** *** The commands *)

Local Abbreviation add_cmd := (kickalert_add py_repr added_embed).

(** The five ways [kickalert_add] ends. *)
Lemma add_cases (c : Collab Embed) settings username channel w :
  let key := add_username username in
  (exists ls,
      ((forall data, data <> JNull ->
                     http_get c (request_url key) <> inr (mkResponse 200 (inr data))) /\
       ((forall data, http_get c (request_url key) <> inr (mkResponse 200 (inr data))) ->
        exists l, ls = [l])) /\
      add_cmd c settings username channel w
      = (Ok (CouldNotFind key), mkWorld true (streamers w) (actions w) (logs w ++ ls))) \/
  (exists data e,
      http_get c (request_url key) = inr (mkResponse 200 (inr data)) /\
      (data <> JNull /\ parse data = Raise e) /\
      add_cmd c settings username channel w = (Raise e, opened w)) \/
  (exists info,
      fetched py_repr c key info /\
      ((truthy_id channel = false /\ truthy_id (global_channel_id settings) = false /\
        add_cmd c settings username channel w = (Ok NoChannelSet, opened w)) \/
       ((truthy_id channel = true \/ truthy_id (global_channel_id settings) = true) /\
        ((exists record,
             streamers w !! key = Some record /\
             add_cmd c settings username channel w
             = (Ok (AlreadyMonitored (info_display_name info)), opened w)) \/
         (streamers w !! key = None /\
          add_cmd c settings username channel w
          = (match added_embed info channel with
             | Ok embed => Ok (StreamerAdded embed)
             | Raise e => Raise e
             end,
             mkWorld true (<[ key := new_record channel info ]> (streamers w))
               (actions w) (logs w))))))).
Proof.
  intros key. remember (add_cmd c settings username channel w) as r eqn:Hr.
  unfold kickalert_add in Hr. fold key in Hr.
  destruct (fetch_cases Embed c key w)
    as [(data & Hget & Hne & Hf) | [[Hnull Hf] | (l & Hno & Hf & _)]].
  2: { left. exists []. unfold bind in Hr. rewrite Hf in Hr. rewrite app_nil_r.
       split; [| exact Hr]. split.
       - intros data Hd Hget. rewrite Hnull in Hget. injection Hget as <-.
         now destruct Hd.
       - intros Hno. now destruct (Hno JNull). }
  2: { left. exists [l]. unfold bind in Hr. rewrite Hf in Hr.
       split; [| exact Hr]. split; [intros data _; apply Hno | eauto]. }
  right. unfold bind at 1 in Hr. rewrite Hf in Hr. cbn beta iota in Hr.
  unfold bind at 1, lift in Hr.
  destruct (parse data) as [info | e] eqn:Hp.
  2: { left. exists data, e. split; [exact Hget |]. split; [split; [exact Hne | exact Hp] |].
       exact Hr. }
  right. exists info. split; [exists data; auto |].
  destruct (truthy_id channel) eqn:Hch; cbn [negb andb] in Hr.
  2: destruct (truthy_id (global_channel_id settings)) eqn:Hg; cbn [negb] in Hr.
  3: { left. split; [reflexivity |]. split; [reflexivity | exact Hr]. }
  all: right; (split; [auto |]).
  all: unfold bind, read_streamers, insert_streamer, lift, ret in Hr;
    cbn [streamers opened session_open actions logs] in Hr.
  all: destruct (streamers w !! key) as [record |] eqn:Hrec;
    [left; exists record; split; [reflexivity | exact Hr] | right; split; [reflexivity |]].
  all: rewrite Hr; now destruct (added_embed info channel).
Qed.




(** X14: a streamer who is live when added is recorded as live with the
    id of the running stream and no notification; the check of that record
    on an unchanged upstream answer does nothing, so the running stream is
    never announced. *)
Theorem X14_added_while_live_not_announced
    (c : Collab Embed) guild username channel info style sv sc ad gch grole w :
  fetched py_repr c username info ->
  truthy (info_is_live info) = true ->
  py_eq (info_stream_id info) (info_stream_id info) = true ->
  _check_single_streamer py_repr _build_live_embed _build_offline_embed
    c guild username (new_record channel info) style sv sc ad gch grole w
  = (Ok tt, opened w).
Proof.
  intros Hf Hl Heq. pose proof Hf as (data & Hget & Hp).
  destruct (resolved_or_not guild (new_record channel info) gch) as [Hun | (ch & Hres)].
  { exact (check_unresolved Embed py_repr _build_live_embed _build_offline_embed
             c guild username _ style sv sc ad gch grole data info w Hget Hp Hun). }
  rewrite (check_resolved Embed py_repr _build_live_embed _build_offline_embed
             c guild username _ style sv sc ad gch grole info ch w Hf Hres).
  unfold is_new_stream, new_record. cbn [is_live last_stream_id].
  rewrite Hl, Heq. cbn [negb andb orb]. rewrite andb_false_r. cbn [andb].
  destruct (String.eqb style "detailed"); reflexivity.
Qed.



Lemma alter_keeps_transition_state (f : WatchRecord -> WatchRecord) (key : string)
    (m : gmap string WatchRecord) (k : string) :
  (forall r, same_transition_state r (f r)) ->
  option_Forall2 same_transition_state (m !! k) (alter f key m !! k).
Proof.
  intros Hf. destruct (decide (k = key)) as [-> | Hne].
  - rewrite lookup_alter_eq. destruct (m !! key); constructor. apply Hf.
  - rewrite lookup_alter_ne by congruence. destruct (m !! k); constructor.
    repeat split.
Qed.

Lemma same_transition_state_refl (m : gmap string WatchRecord) (k : string) :
  option_Forall2 same_transition_state (m !! k) (m !! k).
Proof. destruct (m !! k); constructor. repeat split. Qed.

(** X17: the commands that set or remove a ping role and set or clear a
    custom message never add or remove a streamer, and leave in every
    record the channel, the delete flag, the notification id, the live
    flag and the stream id as they are: they cannot change what the next
    check takes the stream's state to be. *)
Theorem X17_commands_keep_transition_state
    (role : Z) (target : option string) (username : string) (message : option string)
    (settings : GuildSettings) (streamers : gmap string WatchRecord) (k : string) :
  option_Forall2 same_transition_state (streamers !! k)
    (snd (kickalert_setrole (Embed := Embed) role target settings streamers) !! k) /\
  option_Forall2 same_transition_state (streamers !! k)
    (snd (kickalert_removerole (Embed := Embed) target settings streamers) !! k) /\
  option_Forall2 same_transition_state (streamers !! k)
    (snd (kickalert_message (Embed := Embed) username message streamers) !! k).
Proof.
  unfold kickalert_setrole, kickalert_removerole, kickalert_message.
  split; [| split].
  - destruct (truthy_str target); [| apply same_transition_state_refl].
    destruct (streamers !! command_username _); [| apply same_transition_state_refl].
    apply alter_keeps_transition_state. intros r. repeat split.
  - destruct (truthy_str target); [| apply same_transition_state_refl].
    destruct (streamers !! command_username _); [| apply same_transition_state_refl].
    apply alter_keeps_transition_state. intros r. repeat split.
  - destruct (streamers !! command_username _); [| apply same_transition_state_refl].
    apply alter_keeps_transition_state. intros r. repeat split.
Qed.

(** X18: [kickalert_interval] stores the interval exactly when it lies
    between 30 and 600 seconds, both included; outside that range it
    changes nothing.  Valid settings stay valid. *)
Theorem X18_interval_range (seconds : Z) (settings : GuildSettings) :
  let r := kickalert_interval (Embed := Embed) seconds settings in
  ((30 <= seconds <= 600)%Z ->
   fst r = IntervalSet seconds /\ check_interval (snd r) = seconds /\
   embed_style (snd r) = embed_style settings) /\
  ((seconds < 30)%Z -> r = (IntervalTooShort, settings)) /\
  ((600 < seconds)%Z -> r = (IntervalTooLong, settings)) /\
  (settings_valid settings -> settings_valid (snd r)).
Proof.
  intros r. subst r. unfold kickalert_interval, settings_valid.
  destruct (Z.ltb_spec seconds 30); [| destruct (Z.gtb_spec seconds 600)];
    cbn [fst snd check_interval embed_style];
    (split; [intros; try lia; auto |]);
    (split; [intros; try lia; auto |]);
    (split; [intros; try lia; auto |]); tauto.
Qed.

(** X19: [kickalert_style] takes the style in any letter case and stores
    it lower-cased, exactly when that is "detailed" or "minimal"; any other
    word changes nothing.  Valid settings stay valid. *)
Theorem X19_style_words (style : string) (settings : GuildSettings) :
  let r := kickalert_style (Embed := Embed) style settings in
  (lower style = "detailed" \/ lower style = "minimal" ->
   fst r = StyleSet (lower style) /\ embed_style (snd r) = lower style /\
   check_interval (snd r) = check_interval settings) /\
  (lower style <> "detailed" -> lower style <> "minimal" -> r = (StyleInvalid, settings)) /\
  (settings_valid settings -> settings_valid (snd r)).
Proof.
  intros r. subst r. unfold kickalert_style, settings_valid.
  destruct (String.eqb_spec (lower style) "detailed") as [Hd | Hd];
    [| destruct (String.eqb_spec (lower style) "minimal") as [Hm | Hm]];
    cbn [orb fst snd check_interval embed_style].
  - split; [auto |]. split; [congruence |]. intros [Hi _]. auto.
  - split; [auto |]. split; [congruence |]. intros [Hi _]. auto.
  - split; [intros [? | ?]; congruence |]. split; [reflexivity | auto].
Qed.

End MoreFacts.

(** X20: the sleep after a cycle is never under 30 seconds.  When every
    guild that has a streamer has its interval unset or within the range
    [kickalert_interval] accepts, the sleep is at most 600 seconds and is
    the interval of one of those guilds (60 for an unset one), or 60 when
    there is no such guild: the floor of 30 changes nothing. *)
Theorem X20_sleep_time_bounds (all_guilds : list (Z * GuildData)) :
  (30 <= sleep_time all_guilds)%Z /\
  ((forall g n, g ∈ all_guilds -> gd_streamers (snd g) <> ∅ ->
                gd_check_interval (snd g) = Some n -> (30 <= n <= 600)%Z) ->
   (sleep_time all_guilds <= 600)%Z /\
   ((forall g, g ∈ all_guilds -> gd_streamers (snd g) = ∅) /\ sleep_time all_guilds = 60%Z \/
    exists g, g ∈ all_guilds /\ gd_streamers (snd g) <> ∅ /\
              sleep_time all_guilds = default 60%Z (gd_check_interval (snd g)))).
Proof.
  split; [unfold sleep_time; lia |].
  intros Hrange.
  set (watched := fun g : Z * GuildData => gd_streamers (snd g) <> ∅).
  set (interval := fun g : Z * GuildData => default 60%Z (gd_check_interval (snd g))).
  assert (Hmem : forall g, g ∈ filter watched all_guilds <-> watched g /\ g ∈ all_guilds).
  { intros g. apply list_elem_of_filter. }
  assert (Hint : forall g, g ∈ all_guilds -> watched g -> (30 <= interval g <= 600)%Z).
  { intros g Hg Hw. unfold interval.
    destruct (gd_check_interval (snd g)) as [n |] eqn:Hn; cbn; [eauto | lia]. }
  destruct (filter watched all_guilds) as [| g1 L] eqn:HL.
  - assert (Hs : sleep_time all_guilds = 60%Z).
    { unfold sleep_time, intervals. fold watched. now rewrite HL. }
    rewrite Hs. split; [lia |]. left. split; [| reflexivity].
    intros g Hg. destruct (decide (gd_streamers (snd g) = ∅)) as [He | Hne]; [exact He |].
    exfalso. assert (Hin : g ∈ @nil (Z * GuildData)) by (apply Hmem; auto).
    now apply elem_of_nil in Hin.
  - assert (Hs : sleep_time all_guilds = Z.max (py_min (interval g1) (map interval L)) 30).
    { unfold sleep_time, intervals. fold watched. now rewrite HL. }
    rewrite Hs.
    destruct (py_min_spec (interval g1) (map interval L)) as [Hin _].
    change (interval g1 :: map interval L) with (map interval (g1 :: L)) in Hin.
    apply list_elem_of_In, in_map_iff in Hin as (g & Hg & Hin%list_elem_of_In).
    apply Hmem in Hin as [Hw Hall]. pose proof (Hint g Hall Hw) as Hb.
    rewrite <- Hg. split; [lia |]. right. exists g.
    split; [exact Hall |]. split; [exact Hw |]. unfold interval in *. lia.
Qed.

(** *** The loops over the streamers of a guild *)

Section Loops.

Variable Embed : Type.
Variable py_repr : json -> string.
Variable _build_live_embed : StreamInfo -> string -> bool -> bool -> res Embed.
Variable _build_offline_embed : StreamInfo -> res Embed.

Local Abbreviation run_check :=
  (check_with py_repr _build_live_embed _build_offline_embed).
Local Abbreviation loop :=
  (check_streamers py_repr _build_live_embed _build_offline_embed).

(** **** The check only appends to the log *)

Lemma frame_ret (A : Type) (a : A) : log_frame (ret (Embed := Embed) a).
Proof. intros w lg. cbn. now rewrite app_nil_r. Qed.

Lemma frame_lift (A : Type) (r : res A) : log_frame (lift (Embed := Embed) r).
Proof. intros w lg. cbn. now rewrite app_nil_r. Qed.

Lemma frame_log (l : log_entry) : log_frame (log (Embed := Embed) l).
Proof. intros w lg. reflexivity. Qed.

Lemma frame_open : log_frame (open_session Embed).
Proof. intros w lg. cbn. now rewrite app_nil_r. Qed.

Lemma frame_read : log_frame (read_streamers (Embed := Embed)).
Proof. intros w lg. cbn. now rewrite app_nil_r. Qed.

Lemma frame_update (username : string) (f : WatchRecord -> WatchRecord) :
  log_frame (update_streamer (Embed := Embed) username f).
Proof. intros w lg. cbn. now rewrite app_nil_r. Qed.

Lemma frame_call (A : Type) (a : action Embed) (d : delivery A) : log_frame (call Embed a d).
Proof. intros w lg. cbn. now rewrite app_nil_r. Qed.

Lemma with_logs_twice (lg lg' : list log_entry) (w : world Embed) :
  with_logs lg (with_logs lg' w) = with_logs lg w.
Proof. reflexivity. Qed.

Lemma logs_with_logs (lg : list log_entry) (w : world Embed) : logs (with_logs lg w) = lg.
Proof. reflexivity. Qed.

Lemma with_logs_self (w : world Embed) : with_logs (logs w) w = w.
Proof. now destruct w. Qed.

Lemma frame_bind (A B : Type) (m : M Embed A) (k : A -> M Embed B) :
  log_frame m -> (forall a, log_frame (k a)) -> log_frame (bind m k).
Proof.
  intros Hm Hk w lg. unfold bind. rewrite (Hm w lg).
  destruct (m (with_logs [] w)) as [[a | e] w1] eqn:Hrun; cbn [fst snd].
  - pose proof (Hk a w1 (logs w1)) as E. rewrite with_logs_self in E.
    rewrite (Hk a w1 (lg ++ logs w1)%list), E.
    cbn [fst snd with_logs session_open streamers actions logs].
    now rewrite app_assoc.
  - reflexivity.
Qed.

Lemma frame_try (A : Type) (m : M Embed A) (h : exn -> option (M Embed A)) :
  log_frame m -> (forall e k, h e = Some k -> log_frame k) -> log_frame (try_except m h).
Proof.
  intros Hm Hh w lg. unfold try_except. rewrite (Hm w lg).
  destruct (m (with_logs [] w)) as [[a | e] w1] eqn:Hrun; cbn [fst snd].
  - reflexivity.
  - destruct (h e) as [k |] eqn:He; [| reflexivity].
    pose proof (Hh e k He w1 (logs w1)) as E. rewrite with_logs_self in E.
    rewrite (Hh e k He w1 (lg ++ logs w1)%list), E.
    cbn [fst snd with_logs session_open streamers actions logs].
    now rewrite app_assoc.
Qed.

Ltac frame :=
  repeat first
    [ apply frame_ret | apply frame_lift | apply frame_log | apply frame_open
    | apply frame_read | apply frame_update | apply frame_call
    | apply frame_bind; [| intros ?]
    | apply frame_try; [| intros ? ? ?] ].

Lemma frame_fetch (c : Collab Embed) (username : string) :
  log_frame (_fetch_channel_data c username).
Proof.
  unfold _fetch_channel_data. apply frame_bind; [apply frame_open | intros _].
  destruct (http_get c (request_url username)) as [[] | [st [[] | data]]];
    cbn [status body]; try (frame; fail);
    destruct (st =? 200)%Z; try (destruct data; frame; fail); try (frame; fail);
    destruct (st =? 404)%Z; frame.
Qed.

Lemma frame_check (c : Collab Embed) guild username cfg style sv sc ad gch grole :
  log_frame (_check_single_streamer py_repr _build_live_embed _build_offline_embed
               c guild username cfg style sv sc ad gch grole).
Proof.
  unfold _check_single_streamer. apply frame_bind; [apply frame_fetch | intros [data |]].
  2: apply frame_ret.
  apply frame_bind; [apply frame_lift | intros info].
  destruct (negb (truthy_id _)); [apply frame_ret |].
  destruct (get_channel guild _) as [ch |]; [| apply frame_ret].
  destruct (is_new_stream info cfg).
  { unfold went_live. frame.
    match goal with H : _ = Some _ |- _ => revert H end.
    destruct e as [| | | | []]; intros [= <-]; apply frame_log. }
  destruct (negb (truthy (info_is_live info)) && is_live cfg).
  { unfold went_offline. apply frame_bind; [apply frame_read | intros st].
    destruct (st !! username) as [record |]; [| apply frame_ret].
    apply frame_bind; [apply frame_update | intros _].
    apply frame_bind; [| intros _; apply frame_update].
    destruct (truthy_id (last_message_id record)); [| apply frame_ret].
    apply frame_try.
    - apply frame_bind; [apply frame_call | intros old_msg].
      destruct (default ad (delete_after_offline cfg)); frame.
    - intros e k. destruct e; try discriminate. intros [= <-]. apply frame_ret. }
  destruct (truthy (info_is_live info) && is_live cfg && String.eqb style "detailed").
  { unfold still_live. destruct (truthy_id (last_message_id cfg)); [| apply frame_ret].
    apply frame_try.
    - frame.
    - intros e k. destruct e; try discriminate. intros [= <-]. apply frame_ret. }
  apply frame_ret.
Qed.

(** **** One step of each loop *)

Lemma loop_cons (c : Collab Embed) settings guild username cfg rest w :
  loop c settings guild ((username, cfg) :: rest) w
  = loop c settings guild rest
      (match run_check c settings guild username cfg w with
       | (Ok _, w1) => w1
       | (Raise e, w1) =>
           with_logs (logs w1 ++ [ErrorCheckingStreamer username (guild_id guild) e])%list w1
       end).
Proof.
  cbn [check_streamers]. unfold bind at 1, try_except, log.
  now destruct (run_check c settings guild username cfg w) as [[[] | e] w1].
Qed.

Lemma force_cons (c : Collab Embed) settings guild username cfg rest checked live w :
  force_loop py_repr _build_live_embed _build_offline_embed c settings guild
    ((username, cfg) :: rest) checked live w
  = match run_check c settings guild username cfg w with
    | (Ok _, w1) =>
        force_loop py_repr _build_live_embed _build_offline_embed c settings guild rest
          (S checked)
          (match streamers w1 !! username with
           | Some record => if is_live record then S live else live
           | None => live
           end) w1
    | (Raise e, w1) =>
        force_loop py_repr _build_live_embed _build_offline_embed c settings guild rest
          checked live (with_logs (logs w1 ++ [ErrorForceChecking username e])%list w1)
    end.
Proof.
  cbn [force_loop]. unfold bind at 1, try_except at 1, bind at 1.
  destruct (run_check c settings guild username cfg w) as [[[] | e] w1];
    reflexivity.
Qed.

Lemma check_errors_none (ls : list log_entry) (l : log_entry) :
  check_errors ls = 0%nat -> l ∈ ls -> is_check_error l = false.
Proof.
  induction ls as [| a ls IH]; intros Hz Hin; [now apply elem_of_nil in Hin |].
  change (a :: ls) with ([a] ++ ls)%list in Hz.
  rewrite check_errors_app, check_errors_one in Hz.
  apply elem_of_cons in Hin as [-> | Hin].
  - destruct (is_check_error a); [discriminate Hz | reflexivity].
  - apply IH; [| exact Hin]. destruct (is_check_error a); [discriminate Hz | exact Hz].
Qed.


(** The two loops side by side, from worlds that differ in the log only. *)
Lemma force_loop_run (c : Collab Embed) settings guild
    (items : list (string * WatchRecord)) (checked live : nat) (w : world Embed)
    (lg lg' : list log_entry) :
  exists w' ls more,
    loop c settings guild items (with_logs lg w)
    = (Ok tt, with_logs (lg ++ map (as_loop_record (guild_id guild)) ls) w') /\
    force_loop py_repr _build_live_embed _build_offline_embed c settings guild items
      checked live (with_logs lg' w)
    = (Ok ((checked + (length items - check_errors ls))%nat, (live + more)%nat),
       with_logs (lg' ++ ls) w') /\
    (check_errors ls <= length items)%nat /\
    (more <= length items - check_errors ls)%nat.
Proof.
  revert checked live w lg lg'.
  induction items as [| [username cfg] rest IH]; intros checked live w lg lg'.
  - exists w, [], 0%nat. cbn [check_streamers force_loop map length]. unfold ret.
    rewrite !app_nil_r, !Nat.add_0_r. repeat split; cbn; lia.
  - rewrite loop_cons, force_cons. unfold check_with.
    pose proof (frame_check c guild username cfg (embed_style settings)
                  (show_viewer_count settings) (show_category settings)
                  (auto_delete settings) (global_channel_id settings)
                  (global_ping_role_id settings)) as Hframe.
    rewrite (Hframe w lg), (Hframe w lg').
    destruct (check_summary Embed py_repr _build_live_embed _build_offline_embed c guild
                username cfg (embed_style settings) (show_viewer_count settings)
                (show_category settings) (auto_delete settings)
                (global_channel_id settings) (global_ping_role_id settings)
                (with_logs [] w))
      as (_ & _ & ls1 & _ & _ & _ & _ & [Hlogs1 Hls1] & _).
    cbv zeta in Hlogs1. cbn [with_logs logs app] in Hlogs1.
    assert (Hsame : map (as_loop_record (guild_id guild)) ls1 = ls1).
    { clear Hlogs1. induction ls1 as [| a ls1 IHl]; [reflexivity |].
      change (a :: ls1) with ([a] ++ ls1)%list in Hls1.
      rewrite check_errors_app, check_errors_one in Hls1.
      destruct a; cbn [is_check_error] in Hls1; try discriminate Hls1;
        cbn [map as_loop_record]; f_equal; apply IHl; exact Hls1. }
    destruct (_check_single_streamer _ _ _ _ _ _ _ _ _ _ _ _ _ (with_logs [] w))
      as [[[] | e1] w1]; cbn [fst snd logs] in *; subst ls1.
    + cbn [with_logs streamers].
      destruct (IH (S checked)
                  (match streamers w1 !! username with
                   | Some record => if is_live record then S live else live
                   | None => live
                   end) w1 (lg ++ logs w1)%list (lg' ++ logs w1)%list)
        as (w' & ls & more & Hloop & Hforce & Hlen & Hmore).
      rewrite Hloop, Hforce.
      exists w', (logs w1 ++ ls)%list.
      exists (match streamers w1 !! username with
              | Some record => if is_live record then S more else more
              | None => more
              end).
      rewrite map_app, Hsame, !app_assoc, check_errors_app, Hls1. cbn [length plus].
      split; [reflexivity |]. split; [| split; [lia |]].
      * destruct (streamers w1 !! username) as [record |]; [destruct (is_live record) |];
          (apply (f_equal2 pair); [apply f_equal; apply (f_equal2 pair); lia | reflexivity]).
      * destruct (streamers w1 !! username) as [record |]; [destruct (is_live record) |]; lia.
    + rewrite !with_logs_twice, !logs_with_logs.
      destruct (IH checked live w1
                  ((lg ++ logs w1) ++ [ErrorCheckingStreamer username (guild_id guild) e1])%list
                  ((lg' ++ logs w1) ++ [ErrorForceChecking username e1])%list)
        as (w' & ls & more & Hloop & Hforce & Hlen & Hmore).
      rewrite Hloop, Hforce.
      exists w', (logs w1 ++ [ErrorForceChecking username e1] ++ ls)%list, more.
      rewrite !map_app, Hsame, !check_errors_app, Hls1, check_errors_one.
      cbn [map as_loop_record is_check_error length plus].
      rewrite <- !app_assoc. cbn [app].
      split; [reflexivity |]. split; [reflexivity | split; lia].
Qed.

(** X22: [kickalert_force] on an empty list of streamers answers that
    there is nothing to check and does nothing.  Otherwise it never raises
    and leaves the session, the store and the calls exactly as a pass of
    the background loop over the same items does; the two logs differ only
    in the records written for the checks that raised (line 942 for line
    317).  It reports as checked the items whose check did not raise, and
    as live at most that many. *)
Theorem X22_force_runs_the_loop
    (c : Collab Embed) settings guild (items : list (string * WatchRecord)) w :
  match items with
  | [] =>
      kickalert_force py_repr _build_live_embed _build_offline_embed c settings guild
        items w
      = (Ok NoStreamersToCheck, w)
  | _ =>
      exists w1 w2 ls checked live,
        check_streamers py_repr _build_live_embed _build_offline_embed c settings guild
          items w
        = (Ok tt, w1) /\
        kickalert_force py_repr _build_live_embed _build_offline_embed c settings guild
          items w
        = (Ok (ForceChecked checked live), w2) /\
        session_open w2 = session_open w1 /\
        streamers w2 = streamers w1 /\
        actions w2 = actions w1 /\
        logs w2 = (logs w ++ ls)%list /\
        logs w1 = (logs w ++ map (as_loop_record (guild_id guild)) ls)%list /\
        (checked + check_errors ls = length items)%nat /\
        (live <= checked)%nat
  end.
Proof.
  destruct items as [| item rest]; [reflexivity |].
  destruct (force_loop_run c settings guild (item :: rest) 0 0 w (logs w) (logs w))
    as (w' & ls & more & Hloop & Hforce & Hlen & Hmore).
  rewrite with_logs_self in Hloop, Hforce.
  eexists _, _, ls, _, _. split; [exact Hloop |].
  unfold kickalert_force, bind. rewrite Hforce. cbn [fst snd ret].
  split; [reflexivity |]. cbn [with_logs session_open streamers actions logs].
  repeat split; lia.
Qed.

End Loops.

(** * The statements on the sample data *)

Lemma C1_went_live_witness :
  let c := accepting (kick_api nova_live_payload) in
  let w' := snd (demo_check c nova_record (world0 nova_record)) in
  actions w' = [Send 10%Z None "Chess time"] /\
  streamers w' !! "nova" = Some nova_live_record /\
  sends (actions (snd (demo_check c nova_live_record w'))) = sends (actions w').
Proof.
  intros c w'.
  destruct (C1_went_live_iff_new_session string no_repr title_embed offline_embed
              c demo_guild "nova" nova_record "detailed" true true false None None
              nova_live_info 10%Z "Chess time" None (world0 nova_record))
    as (Hsend & _ & Hnext).
  - exists nova_live_payload. split; reflexivity.
  - split; vm_compute; reflexivity.
  - reflexivity.
  - reflexivity.
  - reflexivity.
  - destruct (Hnext 77%Z eq_refl eq_refl eq_refl) as [Hrec Hidem].
    split; [exact (Hsend eq_refl) |]. split; [exact Hrec |].
    apply (Hidem c "detailed" true true false None None).
    intros info2 (data & Hget & Hp). injection Hget as <-.
    vm_compute in Hp. injection Hp as <-. reflexivity.
Defined.

(** C1 as stated fails twice over: a record that is not live gets no send
    when no channel is set, and a live record gets none when the fetched
    session carries no id, different as that is from the stored id. *)
Lemma C1_live_without_send :
  let c := accepting (kick_api nova_live_payload) in
  let c' := accepting (kick_api nova_anonymous_payload) in
  (fetched no_repr c "nova" nova_live_info /\
   truthy (info_is_live nova_live_info) = true /\
   is_live nova_unrouted = false /\
   actions (snd (demo_check c nova_unrouted (world0 nova_unrouted))) = []) /\
  (exists info,
      fetched no_repr c' "nova" info /\
      truthy (info_is_live info) = true /\
      py_eq (info_stream_id info) (last_stream_id nova_live_record) = false /\
      sends (actions (snd (demo_check c' nova_live_record (world0 nova_live_record)))) = 0%nat).
Proof.
  intros c c'. split.
  - split; [exists nova_live_payload; split; reflexivity |].
    repeat split; vm_compute; reflexivity.
  - eexists. split; [exists nova_anonymous_payload; split; reflexivity |].
    repeat split; vm_compute; reflexivity.
Qed.

Lemma C2_went_offline_witness :
  let r := demo_check (accepting (kick_api nova_avatar_payload)) nova_live_record
             (world0 nova_live_record) in
  offline_embed nova_avatar_info = Ok "offline" /\
  fst r = Ok tt /\
  (exists record',
      streamers (snd r) !! "nova" = Some record' /\
      is_live record' = false /\ last_message_id record' = None) /\
  streamers (snd r)
  = <[ "nova" := set_last_message_id None (set_is_live false nova_live_record) ]>
      (streamers (world0 nova_live_record)).
Proof.
  split; [reflexivity |].
  apply (C2_went_offline_clears string no_repr title_embed offline_embed
           (accepting (kick_api nova_avatar_payload)) demo_guild "nova" nova_live_record
           "detailed" true true false None None nova_avatar_info 10%Z nova_live_record
           (world0 nova_live_record)).
  - exists nova_avatar_payload. split; reflexivity.
  - split; vm_compute; reflexivity.
  - reflexivity.
  - reflexivity.
  - vm_compute. reflexivity.
  - intros _ old_msg _ _. exists "offline". reflexivity.
Defined.

(** C2 as stated fails twice over.  When no channel is set, the record
    stays live and keeps its message id.  When the notification is found
    and the offline embed does not build, as for a channel without avatar,
    the check raises: the record is no longer live but keeps its message
    id. *)
Lemma C2_record_not_cleared :
  let c := accepting (kick_api nova_offline_payload) in
  let r := demo_check c nova_live_record (world0 nova_live_record) in
  (fetched no_repr c "nova" nova_offline_info /\
   info_is_live nova_offline_info = JBool false /\
   is_live nova_live_unrouted = true /\
   streamers (snd (demo_check c nova_live_unrouted (world0 nova_live_unrouted))) !! "nova"
   = Some nova_live_unrouted) /\
  (is_live nova_live_record = true /\
   resolved demo_guild nova_live_record None 10%Z /\
   channel_fetch_message c 10%Z 77%Z = Done 77%Z /\
   fst r = Raise AttributeError /\
   streamers (snd r) !! "nova" = Some (set_is_live false nova_live_record) /\
   last_message_id (set_is_live false nova_live_record) = Some 77%Z /\
   actions (snd r) = [FetchMessage 10%Z 77%Z]).
Proof.
  intros c r. split.
  - split; [exists nova_offline_payload; split; reflexivity |].
    repeat split; vm_compute; reflexivity.
  - split; [reflexivity |]. split; [split; vm_compute; reflexivity |].
    repeat split; vm_compute; reflexivity.
Qed.

Lemma C3_not_live_witness :
  _parse_stream_info no_repr nova_offline_payload = Ok nova_offline_info /\
  info_is_live nova_offline_info = JBool false /\
  info_tags nova_offline_info = [].
Proof.
  destruct (C3_not_live_defaults no_repr nova_offline_payload) as [Hfields _].
  - eexists. split; [reflexivity |]. right. left. reflexivity.
  - destruct (Hfields nova_offline_info eq_refl) as (Hlive & _ & _ & _ & _ & _ & _ & _ & _ & Htags).
    split; [reflexivity |]. split; [exact Hlive | exact Htags].
Defined.

Lemma C4_send_failure_witness :
  let r := demo_check (refusing (kick_api nova_live_payload)) nova_record
             (world0 nova_record) in
  fst r = Ok tt /\
  streamers (snd r) = streamers (world0 nova_record) /\
  actions (snd r) = (actions (world0 nova_record) ++ [Send 10%Z None "Chess time"])%list.
Proof.
  apply (C4_send_failure_swallowed string no_repr title_embed offline_embed
           (refusing (kick_api nova_live_payload)) demo_guild "nova" nova_record
           "detailed" true true false None None nova_live_info 10%Z "Chess time" None
           Forbidden (world0 nova_record)).
  - exists nova_live_payload. split; reflexivity.
  - split; vm_compute; reflexivity.
  - reflexivity.
  - reflexivity.
  - reflexivity.
  - reflexivity.
Defined.

Lemma C6_flat_template_witness :
  apply_template no_repr "{streamer} ({viewers}) plays {game}: {url} {soon}" nova_live_info
  = Ok "Nova (1234) plays Chess: https://kick.com/nova {soon}".
Proof.
  destruct (C6_flat_template no_repr nova_live_info
              [Tok "streamer"; Txt " ("; Tok "viewers"; Txt ") plays "; Tok "game";
               Txt ": "; Tok "url"; Txt " "; Tok "soon"]
              "Nova" "Chess" "Chess time") as (Happly & _ & _).
  - reflexivity.
  - reflexivity.
  - reflexivity.
  - repeat constructor.
  - repeat constructor.
  - exact Happly.
Defined.

(** C6 as stated fails on the order: with a display name that reads
    [{game}], the order of the code turns [{streamer}] into the category,
    and the order that replaces [{game}] first leaves [{game}]. *)
Lemma C6_order_matters :
  apply_template no_repr "{streamer}" cascade_info = Ok "Chess" /\
  apply_in_order
    [("game", "Chess"); ("streamer", "{game}"); ("title", "Chess time");
     ("url", "https://kick.com/nova"); ("viewers", "5")] "{streamer}"
  = "{game}".
Proof. split; reflexivity. Qed.

Lemma C7_absent_witness :
  exists l,
    _fetch_channel_data (accepting (status_api 503)) "nova" (world0 nova_record)
    = (Ok None, mkWorld true (streamers (world0 nova_record)) [] [l]) /\
    (l = DebugNotFound "nova" <->
     exists b, status_api 503 (request_url "nova") = inr (mkResponse 404 b)).
Proof.
  apply (C7_absent_on_every_failure string (accepting (status_api 503)) "nova"
           (world0 nova_record)).
  intros data H. discriminate H.
Defined.

(** C7 as stated fails: a 404 and a 503 give the caller the same value. *)
Lemma C7_not_found_like_error :
  fst (_fetch_channel_data (accepting (status_api 404)) "nova" (world0 nova_record))
  = Ok None /\
  fst (_fetch_channel_data (accepting (status_api 503)) "nova" (world0 nova_record))
  = Ok None.
Proof. split; reflexivity. Qed.

Lemma C9_lower_case_witness :
  request_url "nova" = request_url "NoVa" /\
  (forall w : world string,
      fst (_fetch_channel_data (accepting (kick_api nova_live_payload)) "nova" w)
      = fst (_fetch_channel_data (accepting (kick_api nova_live_payload)) "NoVa" w)) /\
  request_url (add_username (" " +:+ "/" +:+ "nova" +:+ "/" +:+ "  ")) = request_url "nova".
Proof.
  apply (C9_fetch_lower_cases string (accepting (kick_api nova_live_payload))
           "nova" "NoVa" " " "/" "/" "  ").
  - reflexivity.
  - reflexivity.
  - reflexivity.
  - reflexivity.
  - reflexivity.
  - reflexivity.
  - reflexivity.
  - repeat split; reflexivity.
Defined.

(** C9 as stated fails: the fetch finds "nova" under any case, and does not
    find it under a name with a space or slashes around it. *)
Lemma C9_fetch_does_not_trim :
  let c := accepting (kick_api nova_live_payload) in
  fst (_fetch_channel_data c "NOVA" (world0 nova_record)) = Ok (Some nova_live_payload) /\
  fst (_fetch_channel_data c " nova " (world0 nova_record)) = Ok None /\
  fst (_fetch_channel_data c "/nova/" (world0 nova_record)) = Ok None.
Proof. repeat split; reflexivity. Qed.

Lemma C10_unresolved_witness :
  let r := demo_check (accepting (kick_api nova_offline_payload)) nova_live_unrouted
             (world0 nova_live_unrouted) in
  streamers (snd r) = streamers (world0 nova_live_unrouted) /\
  actions (snd r) = actions (world0 nova_live_unrouted).
Proof.
  apply (C10_unresolved_channel_frame string no_repr title_embed offline_embed
           (accepting (kick_api nova_offline_payload)) demo_guild "nova" nova_live_unrouted
           "detailed" true true false None None (world0 nova_live_unrouted)).
  left. reflexivity.
Defined.

(** * The further properties on the sample data *)

Lemma X1_falsy_live_witness :
  exists info,
    _parse_stream_info no_repr nova_ended_payload = Ok info /\
    truthy (info_is_live info) = false /\
    info_stream_id info = JNull /\
    info_stream_title info = JNull /\
    info_viewer_count info = JInt 0.
Proof.
  eexists. split; [reflexivity |]. split; [reflexivity |].
  destruct (X1_falsy_live_means_defaults no_repr nova_ended_payload _ eq_refl eq_refl)
    as (Hid & Htitle & Hviewers & _).
  split; [exact Hid |]. split; [exact Htitle | exact Hviewers].
Defined.

Lemma X2_thumbnail_witness :
  exists info,
    _parse_stream_info no_repr (JObj nova_stream_payload) = Ok info /\
    info_thumbnail_url info = JStr "https://img.kick.com/t.png".
Proof.
  eexists. split; [reflexivity |].
  exact (X2_thumbnail_forms no_repr nova_stream_payload nova_stream _
           eq_refl eq_refl eq_refl).
Defined.

Lemma X3_category_witness :
  exists info,
    _parse_stream_info no_repr (JObj nova_stream_payload) = Ok info /\
    info_category info = JStr "Chess".
Proof.
  eexists. split; [reflexivity |].
  destruct (X3_category_precedence no_repr nova_stream_payload nova_stream _
              eq_refl eq_refl eq_refl) as (_ & Hsingular & _).
  exact (Hsingular [("name", JStr "Chess")] eq_refl eq_refl).
Defined.

Lemma X6_raise_witness :
  let r := demo_check (accepting (kick_api nova_null_user_payload)) nova_live_record
             (world0 nova_live_record) in
  fst r = Raise AttributeError /\
  raised_by no_repr title_embed offline_embed (accepting (kick_api nova_null_user_payload))
    demo_guild "nova" nova_live_record "detailed" true true None AttributeError /\
  sends (actions (snd r)) = sends (actions (world0 nova_live_record)).
Proof.
  split; [reflexivity |].
  destruct (X6_check_raise_sources string no_repr title_embed offline_embed
              (accepting (kick_api nova_null_user_payload)) demo_guild "nova"
              nova_live_record "detailed" true true false None None
              (world0 nova_live_record) AttributeError eq_refl) as (Hby & Hsends & _).
  split; [exact Hby | exact Hsends].
Defined.

Lemma X7_quiet_witness :
  demo_check (accepting (kick_api nova_offline_payload)) nova_record (world0 nova_record)
  = (Ok tt, opened (world0 nova_record)).
Proof.
  apply (X7_check_quiet string no_repr title_embed offline_embed
           (accepting (kick_api nova_offline_payload)) demo_guild "nova" nova_record
           "detailed" true true false None None nova_offline_info (world0 nova_record)).
  - exists nova_offline_payload. split; reflexivity.
  - left. split; reflexivity.
Defined.

Lemma X8_went_offline_witness :
  demo_check (accepting (kick_api nova_avatar_payload)) nova_live_record
    (world0 nova_live_record)
  = (Ok tt,
     mkWorld true
       (<[ "nova" := set_last_message_id None (set_is_live false nova_live_record) ]>
          (streamers (world0 nova_live_record)))
       [FetchMessage 10%Z 77%Z; Edit 77%Z (Some None) "offline"] []) /\
  demo_check (accepting (kick_api nova_offline_payload)) nova_live_record
    (world0 nova_live_record)
  = (Raise AttributeError,
     mkWorld true
       (<[ "nova" := set_is_live false nova_live_record ]>
          (streamers (world0 nova_live_record)))
       [FetchMessage 10%Z 77%Z] []).
Proof.
  split.
  - destruct (X8_went_offline_calls string no_repr title_embed offline_embed
                (accepting (kick_api nova_avatar_payload)) demo_guild "nova"
                nova_live_record "detailed" true true false None None nova_avatar_info
                10%Z nova_live_record 77%Z 77%Z (world0 nova_live_record))
      as (_ & Hedit & _).
    + exists nova_avatar_payload. split; reflexivity.
    + split; vm_compute; reflexivity.
    + reflexivity.
    + reflexivity.
    + vm_compute. reflexivity.
    + reflexivity.
    + discriminate.
    + reflexivity.
    + exact (Hedit "offline" eq_refl eq_refl).
  - destruct (X8_went_offline_calls string no_repr title_embed offline_embed
                (accepting (kick_api nova_offline_payload)) demo_guild "nova"
                nova_live_record "detailed" true true false None None nova_offline_info
                10%Z nova_live_record 77%Z 77%Z (world0 nova_live_record))
      as (_ & _ & Hraise).
    + exists nova_offline_payload. split; reflexivity.
    + split; vm_compute; reflexivity.
    + reflexivity.
    + reflexivity.
    + vm_compute. reflexivity.
    + reflexivity.
    + discriminate.
    + reflexivity.
    + apply (Hraise AttributeError eq_refl eq_refl). intros d. discriminate.
Defined.

Lemma X9_refresh_witness :
  demo_check (accepting (kick_api nova_live_payload)) nova_live_record
    (world0 nova_live_record)
  = (Ok tt,
     mkWorld true (streamers (world0 nova_live_record))
       [FetchMessage 10%Z 77%Z; Edit 77%Z None "Chess time"] []).
Proof.
  apply (X9_refresh_calls string no_repr title_embed offline_embed
           (accepting (kick_api nova_live_payload)) demo_guild "nova" nova_live_record
           true true false None None nova_live_info 10%Z 77%Z 77%Z "Chess time"
           (world0 nova_live_record)).
  - exists nova_live_payload. split; reflexivity.
  - split; vm_compute; reflexivity.
  - reflexivity.
  - reflexivity.
  - reflexivity.
  - discriminate.
  - reflexivity.
  - reflexivity.
Defined.

Lemma X10_auto_delete_witness :
  let c := accepting (kick_api nova_offline_payload) in
  let w := world0 nova_live_record in
  delete_after_offline nova_live_record = Some false /\
  _check_single_streamer no_repr title_embed offline_embed c demo_guild "nova"
    nova_live_record "detailed" true true true None None w
  = demo_check c nova_live_record w.
Proof.
  intros c w. split; [reflexivity |].
  apply (X10_auto_delete_overridden string no_repr title_embed offline_embed c demo_guild
           "nova" nova_live_record "detailed" true true true false None None w).
  discriminate.
Defined.



Lemma X14_added_live_witness :
  demo_check (accepting (kick_api nova_live_payload))
    (new_record (Some 10%Z) nova_live_info)
    (world0 (new_record (Some 10%Z) nova_live_info))
  = (Ok tt, opened (world0 (new_record (Some 10%Z) nova_live_info))).
Proof.
  apply (X14_added_while_live_not_announced string no_repr title_embed offline_embed
           (accepting (kick_api nova_live_payload)) demo_guild "nova" (Some 10%Z)
           nova_live_info "detailed" true true false None None).
  - exists nova_live_payload. split; reflexivity.
  - reflexivity.
  - reflexivity.
Defined.


